(** * Record transformations of the SWAPI (problem set 10) and NYT
      (problem set 09) scripts

    A shallow embedding of [solution_set_10.py] and [solution-set_09.py].
    Decoded JSON is a tree of [value]s; a Python [dict] with string keys is a
    [gmap string value], so that key uniqueness and order-insensitive
    equality are built in.  Python exceptions are the [Raise] branch of
    [result].  Values are trees without sharing, as [json.load] and
    [Response.json] produce them.  A Python string is the [string] of its
    UTF-8 bytes; iterating over it and indexing it go by code point. *)

From Stdlib Require Import ZArith String Ascii List.
From stdpp Require Import base option list strings gmap fin_maps.

#[local] Set Warnings "-register-all,-clear-no-such-hyp".
#[local] Open Scope Z_scope.

(** ** Values *)

(** What [datetime.strptime] builds for the format
    ["%Y-%m-%dT%H:%M:%S%z"]: the calendar fields and the offset from UTC,
    in seconds. *)
Record datetime : Type := mk_datetime {
  year : Z; month : Z; day : Z;
  hour : Z; minute : Z; second : Z;
  utcoffset : Z
}.

Inductive value : Type :=
  | VNull
  | VBool (b : bool)
  | VNum (n : Z)
  | VStr (s : string)
  | VList (l : list value)
  | VDict (d : gmap string value)
  | VDatetime (t : datetime).

Abbreviation dict := (gmap string value).

Inductive exn : Type :=
  | KeyError (key : value)
  | IndexError
  | TypeError
  | AttributeError
  | ValueError
  | RequestError.

Inductive result (A : Type) : Type :=
  | Ok (a : A)
  | Raise (e : exn).
Arguments Ok {A} a.
Arguments Raise {A} e.

#[global] Instance result_ret : MRet result := fun A a => Ok a.
#[global] Instance result_bind : MBind result := fun A B f m =>
  match m with
  | Ok a => f a
  | Raise e => Raise e
  end.

Fixpoint foldlM {A B : Type} (f : B -> A -> result B) (acc : B) (l : list A)
  : result B :=
  match l with
  | [] => Ok acc
  | x :: l' => acc' ← f acc x; foldlM f acc' l'
  end.

(** ** Python operations on values *)

(** Days since 1970-01-01 of a proleptic Gregorian date. *)
Definition days_from_civil (y m d : Z) : Z :=
  let y' := if m <=? 2 then y - 1 else y in
  let era := y' / 400 in
  let yoe := y' - era * 400 in
  let doy := (153 * (if m <=? 2 then m + 9 else m - 3) + 2) / 5 + d - 1 in
  era * 146097 + (yoe * 365 + yoe / 4 - yoe / 100 + doy) - 719468.

(** Two aware datetimes are [==] when they denote the same instant. *)
Definition datetime_instant (t : datetime) : Z :=
  days_from_civil (year t) (month t) (day t) * 86400
  + hour t * 3600 + minute t * 60 + second t - utcoffset t.

(** [a == b]. [bool] is a subclass of [int] ([True == 1]); dicts compare by
    key set and values, whatever the insertion order. *)
Fixpoint py_eq (a b : value) {struct a} : bool :=
  match a, b with
  | VNull, VNull => true
  | VBool x, VBool y => Bool.eqb x y
  | VBool x, VNum z => Z.b2z x =? z
  | VNum z, VBool x => z =? Z.b2z x
  | VNum x, VNum y => x =? y
  | VStr x, VStr y => String.eqb x y
  | VList xs, VList ys =>
      (fix go (xs ys : list value) : bool :=
         match xs, ys with
         | [], [] => true
         | x :: xs', y :: ys' => py_eq x y && go xs' ys'
         | _, _ => false
         end) xs ys
  | VDict d1, VDict d2 =>
      bool_decide (dom d1 = dom d2) &&
      map_fold (fun k v acc =>
                  acc && match d2 !! k with
                         | Some v' => py_eq v v'
                         | None => false
                         end) true d1
  | VDatetime s, VDatetime t => datetime_instant s =? datetime_instant t
  | _, _ => false
  end.

(** [bool(v)]. *)
Definition truthy (v : value) : bool :=
  match v with
  | VNull => false
  | VBool b => b
  | VNum n => negb (n =? 0)
  | VStr s => negb (String.eqb s "")
  | VList l => negb (bool_decide (l = []))
  | VDict d => negb (bool_decide (dom d = ∅))
  | VDatetime _ => true
  end.

(** [sub in s] on two strings: [sub] occurs somewhere in [s]. *)
Fixpoint str_contains (sub s : string) : bool :=
  String.prefix sub s ||
  match s with
  | EmptyString => false
  | String _ s' => str_contains sub s'
  end.

(** [needle in hay]. *)
Definition py_in (needle hay : value) : result bool :=
  match hay with
  | VStr h =>
      match needle with
      | VStr n => Ok (str_contains n h)
      | _ => Raise TypeError
      end
  | VList l => Ok (existsb (py_eq needle) l)
  | VDict d =>
      match needle with
      | VStr k => Ok (bool_decide (k ∈ dom d))
      | VList _ | VDict _ => Raise TypeError
      | _ => Ok false
      end
  | _ => Raise TypeError
  end.

(** [d[k]] on a dict. *)
Definition dict_getitem (d : dict) (k : string) : result value :=
  match d !! k with
  | Some v => Ok v
  | None => Raise (KeyError (VStr k))
  end.

(** [l[i]] on a sequence of length [length l], with Python's negative
    indices. *)
Definition seq_index {A : Type} (l : list A) (i : Z) : result A :=
  let n := Z.of_nat (length l) in
  let j := if i <? 0 then i + n else i in
  if (0 <=? j) && (j <? n) then
    match l !! Z.to_nat j with
    | Some x => Ok x
    | None => Raise IndexError
    end
  else Raise IndexError.

(** A byte [10xxxxxx], which continues a code point in UTF-8. *)
Definition is_continuation (c : ascii) : bool :=
  let n := N_of_ascii c in
  (128 <=? n)%N && (n <? 192)%N.

(** The characters of a string, each as a string of its own: a byte that
    starts a code point together with the continuation bytes after it. *)
Fixpoint code_points (s : string) : list string :=
  match s with
  | EmptyString => []
  | String c s' =>
      let continued :=
        match s' with
        | String c' _ => is_continuation c'
        | EmptyString => false
        end in
      match code_points s' with
      | p :: ps =>
          if continued then String c p :: ps
          else String c EmptyString :: p :: ps
      | [] => [String c EmptyString]
      end
  end.

(** [v[key]]. *)
Definition py_getitem (v key : value) : result value :=
  match v with
  | VDict d =>
      match key with
      | VStr k => dict_getitem d k
      | VList _ | VDict _ => Raise TypeError
      | _ => Raise (KeyError key)
      end
  | VList l =>
      match key with
      | VNum i => seq_index l i
      | VBool b => seq_index l (Z.b2z b)
      | _ => Raise TypeError
      end
  | VStr s =>
      let chars := VStr <$> code_points s in
      match key with
      | VNum i => seq_index chars i
      | VBool b => seq_index chars (Z.b2z b)
      | _ => Raise TypeError
      end
  | _ => Raise TypeError
  end.

(** [v.get(k, dflt)]: only a dict has the method. *)
Definition py_get (v : value) (k : string) (dflt : value) : result value :=
  match v with
  | VDict d => Ok (default dflt (d !! k))
  | _ => Raise AttributeError
  end.

(** [list(v)], the elements a [for] loop over [v] visits.  A dict yields its
    keys. *)
Definition py_iter (v : value) : result (list value) :=
  match v with
  | VList l => Ok l
  | VStr s => Ok (VStr <$> code_points s)
  | VDict d => Ok (VStr <$> (map_to_list d).*1)
  | _ => Raise TypeError
  end.

(** [v.append(x)]: only a list has the method. *)
Definition py_append (v x : value) : result value :=
  match v with
  | VList l => Ok (VList (l ++ [x]))
  | _ => Raise AttributeError
  end.

(** ** Problem set 10: the SWAPI script *)

Section Swapi.

(** [requests.get(url, params, timeout=timeout).json()]: the decoded body
    of the response, or the exception the request or the decoder raises. *)
Variable requests_get_json : value -> option dict -> result value.

Definition get_swapi_resource (url : value) (params : option dict)
  : result value :=
  match params with
  | Some p =>
      if truthy (VDict p) then requests_get_json url (Some p)
      else requests_get_json url None
  | None => requests_get_json url None
  end.

Definition get_homeworld (identifier url : value) : result dict :=
  is_url ← py_in (VStr "https://") identifier;
  swapi_result ←
    (if is_url : bool then get_swapi_resource identifier None
     else
       let params : dict := {[ "search" := identifier ]} in
       get_swapi_resource url (Some params));
  name ← py_get swapi_result "name" (VStr "");
  diameter ← py_get swapi_result "diameter" (VStr "");
  climate ← py_get swapi_result "climate" (VStr "");
  terrain ← py_get swapi_result "terrain" (VStr "");
  population ← py_get swapi_result "population" (VStr "");
  Ok ({[ "name" := name;
         "diameter" := diameter;
         "climate" := climate;
         "terrain" := terrain;
         "population" := population ]} : dict).

Definition create_person (person : dict) (url : value) : result dict :=
  homeworld ← get_homeworld (default VNull (person !! "homeworld")) url;
  Ok ({[ "name" := default (VStr "") (person !! "name");
         "height" := default (VStr "") (person !! "height");
         "mass" := default (VStr "") (person !! "mass");
         "birth_year" := default (VStr "") (person !! "birth_year");
         "eye_color" := default (VStr "") (person !! "eye_color");
         "homeworld" := VDict homeworld;
         "dialogue" := VList [] ]} : dict).

(** The expression [get_swapi_resource(url, params)["results"][0]] with
    which [main] takes the first match out of a search response. *)
Definition main_first_result (url : value) (params : dict) : result value :=
  envelope ← get_swapi_resource url (Some params);
  results ← py_getitem envelope (VStr "results");
  py_getitem results (VNum 0).

End Swapi.

Definition create_starship (starship : dict) : dict :=
  {[ "name" := default (VStr "") (starship !! "name");
     "model" := default (VStr "") (starship !! "model");
     "passengers" := VList [];
     "max_atmosphering_speed" :=
       default (VStr "") (starship !! "max_atmosphering_speed");
     "length" := default (VStr "") (starship !! "length") ]}.

(** One turn of the loop of [board_starship]. *)
Definition board_person (starship : dict) (item : value * bool) : result dict :=
  let '(person, is_intruder) := item in
  if is_intruder then
    match starship !! "intruder" with
    | Some bucket =>
        bucket' ← py_append bucket person;
        Ok (<["intruder" := bucket']> starship)
    | None => Ok (<["intruder" := VList [person]]> starship)
    end
  else
    match starship !! "passengers" with
    | Some bucket =>
        bucket' ← py_append bucket person;
        Ok (<["passengers" := bucket']> starship)
    | None => Ok (<["passengers" := VList [person]]> starship)
    end.

Definition board_starship (starship : dict) (people : list (value * bool))
  : result dict :=
  foldlM board_person starship people.

Definition capture_starship (attacker : dict) (prey : value) : result dict :=
  match attacker !! "primary_docking_bay" with
  | None =>
      let bay : dict := {[ "docked" := VList [prey] ]} in
      Ok (<["primary_docking_bay" := VDict bay]> attacker)
  | Some (VDict bay) =>
      docked ← dict_getitem bay "docked";
      docked' ← py_append docked prey;
      Ok (<["primary_docking_bay" := VDict (<["docked" := docked']> bay)]>
            attacker)
  | Some other => _ ← py_getitem other (VStr "docked"); Raise TypeError
  end.

(** [a += b].  On a list it is [extend]: the elements of any iterable [b]
    are appended. *)
Definition py_iadd (a b : value) : result value :=
  match a, b with
  | VList l, _ => items ← py_iter b; Ok (VList (l ++ items))
  | VStr s, VStr t => Ok (VStr (s +:+ t))
  | VNum x, VNum y => Ok (VNum (x + y))
  | VNum x, VBool y => Ok (VNum (x + Z.b2z y))
  | VBool x, VNum y => Ok (VNum (Z.b2z x + y))
  | VBool x, VBool y => Ok (VNum (Z.b2z x + Z.b2z y))
  | _, _ => Raise TypeError
  end.

(** One turn of the loop of [insert_dialogue]. *)
Definition insert_lines (person : dict) (item : string * value) : result dict :=
  let '(name, lines) := item in
  if py_eq (default VNull (person !! "name")) (VStr name) then
    spoken ← dict_getitem person "dialogue";
    spoken' ← py_iadd spoken lines;
    Ok (<["dialogue" := spoken']> person)
  else Ok person.

(** The loop over [dialogue.items()].  The keys of a dict are distinct and
    at most one of them is the name of the person, so the order in which the
    items are visited does not show in the result. *)
Definition insert_dialogue (person dialogue : dict) : result dict :=
  foldlM insert_lines person (map_to_list dialogue).

(** ** Problem set 09: the NYT articles script *)

Section Nyt.

(** [datetime.strptime(s, "%Y-%m-%dT%H:%M:%S%z")] on a string; [None] when
    the library raises [ValueError] because [s] does not match the format. *)
Variable strptime : string -> option datetime.

(** [str.title]. *)
Variable str_title : string -> string.

Definition py_strptime (v : value) : result value :=
  match v with
  | VStr s =>
      match strptime s with
      | Some t => Ok (VDatetime t)
      | None => Raise ValueError
      end
  | _ => Raise TypeError
  end.

(** One turn of the inner loop of [convert_published_date_value] over the
    items of an article. *)
Definition convert_item (article : dict) (item : string * value) : result dict :=
  let '(key, v) := item in
  if String.eqb key "pub_date" then
    t ← py_strptime v;
    Ok (<[key := t]> article)
  else Ok article.

(** The inner loop over [article.items()].  The keys of a dict are distinct,
    so the order in which the items are visited does not show in the
    result. *)
Definition convert_article (article : dict) : result dict :=
  foldlM convert_item article (map_to_list article).

Definition convert_published_date_value (data : list dict)
  : result (list dict) :=
  mapM convert_article data.

Definition create_headline_url_list (data : list dict)
  : result (list (value * value)) :=
  mapM (fun article : dict =>
          headline ← dict_getitem article "headline";
          main ← py_getitem headline (VStr "main");
          web_url ← dict_getitem article "web_url";
          Ok (main, web_url)) data.

Definition filter_articles (data : list dict) (keys_to_exclude : list string)
  : list dict :=
  (fun article : dict =>
     filter (fun kv : string * value => kv.1 ∉ keys_to_exclude) article)
    <$> data.

Definition py_title (v : value) : result string :=
  match v with
  | VStr s => Ok (str_title s)
  | _ => Raise AttributeError
  end.

Definition format_author_name (person : value) : result value :=
  lastname ← py_getitem person (VStr "lastname");
  last ← py_title lastname;
  firstname ← py_getitem person (VStr "firstname");
  first ← py_title firstname;
  Ok (VStr (last +:+ ", " +:+ first)).

Definition get_author_names (article : dict) : result (list value) :=
  byline ← dict_getitem article "byline";
  person ← py_getitem byline (VStr "person");
  people ← py_iter person;
  mapM format_author_name people.

(** The comprehension of [get_organization_names] over the keywords. *)
Fixpoint organization_values (keywords : list value) : result (list value) :=
  match keywords with
  | [] => Ok []
  | keyword :: rest =>
      name ← py_getitem keyword (VStr "name");
      if py_eq name (VStr "organizations") then
        v ← py_getitem keyword (VStr "value");
        vs ← organization_values rest;
        Ok (v :: vs)
      else organization_values rest
  end.

Definition get_organization_names (article : dict) : result (list value) :=
  keywords ← py_iter (default (VList []) (article !! "keywords"));
  organization_values keywords.

(** The [any(...)] of [get_news_by_location]: it stops at the first keyword
    that matches, and [and] evaluates its right operand only when the left
    one holds. *)
Fixpoint any_glocation (location : string) (keywords : list value)
  : result bool :=
  match keywords with
  | [] => Ok false
  | keyword :: rest =>
      name ← py_getitem keyword (VStr "name");
      hit ← (if py_eq name (VStr "glocations") then
               v ← py_getitem keyword (VStr "value");
               py_in (VStr location) v
             else Ok false);
      if hit : bool then Ok true else any_glocation location rest
  end.

Fixpoint get_news_by_location (data : list dict) (location : string)
  : result (list dict) :=
  match data with
  | [] => Ok []
  | article :: rest =>
      keywords ← py_iter (default (VList []) (article !! "keywords"));
      hit ← any_glocation location keywords;
      rest' ← get_news_by_location rest location;
      Ok (if hit : bool then article :: rest' else rest')
  end.

Fixpoint remove_empty_keywords_articles (data : list dict)
  : result (list dict) :=
  match data with
  | [] => Ok []
  | article :: rest =>
      keywords ← dict_getitem article "keywords";
      rest' ← remove_empty_keywords_articles rest;
      Ok (if truthy keywords then article :: rest' else rest')
  end.

(** [x in acc] for a list [acc]. *)
Definition list_contains (acc : list value) (x : value) : bool :=
  existsb (py_eq x) acc.

(** One turn of the inner loop of [main] (step 4.2) over the organization
    names of an article. *)
Definition add_organization (tech_organizations : list value) (name : value)
  : list value :=
  if negb (list_contains tech_organizations name)
  then tech_organizations ++ [name]
  else tech_organizations.

(** The loop of [main] (step 4.2) that collects [tech_organizations]. *)
Definition tech_organizations (nyt_tech : list dict) : result (list value) :=
  foldlM (fun (tech_organizations : list value) (article : dict) =>
            org_names ← get_organization_names article;
            if truthy (VList org_names) then
              Ok (fold_left add_organization org_names tech_organizations)
            else Ok tech_organizations)
         [] nyt_tech.

(** [x is not None]. *)
Definition is_not_none (x : value) : bool :=
  match x with
  | VNull => false
  | _ => true
  end.

(** One turn of the inner loop of [main] (step 7.3) over the authors of an
    article. *)
Definition add_author (unique_authors : list value) (author : value)
  : list value :=
  if is_not_none author && negb (list_contains unique_authors author)
  then unique_authors ++ [author]
  else unique_authors.

(** The loop of [main] (step 7.3) that collects [unique_authors]. *)
Definition unique_authors (nyt_tech : list dict) : result (list value) :=
  foldlM (fun (unique_authors : list value) (article : dict) =>
            authors ← get_author_names article;
            if truthy (VList authors) then
              Ok (fold_left add_author authors unique_authors)
            else Ok unique_authors)
         [] nyt_tech.

(** [v.year]: only a datetime has the attribute. *)
Definition py_year (v : value) : result Z :=
  match v with
  | VDatetime t => Ok (year t)
  | _ => Raise AttributeError
  end.

Definition show_archival_status (data : list dict) (active_year_threshold : Z)
  : result (list (value * string)) :=
  mapM (fun article : dict =>
          pub_date ← dict_getitem article "pub_date";
          y ← py_year pub_date;
          if y >=? active_year_threshold then
            headline ← dict_getitem article "headline";
            main ← py_getitem headline (VStr "main");
            Ok (main, "Active")
          else
            headline ← dict_getitem article "headline";
            main ← py_getitem headline (VStr "main");
            Ok (main, "Archived")) data.

End Nyt.

(** ** Predicates of the properties *)

(** The list a bucket key holds; a missing bucket holds nothing yet. *)
Definition bucket (starship : dict) (k : string) : list value :=
  match starship !! k with
  | Some (VList l) => l
  | _ => []
  end.

(** A bucket key is either missing or bound to a list. *)
Definition is_bucket (o : option value) : bool :=
  match o with
  | None | Some (VList _) => true
  | Some _ => false
  end.

Definition buckets_are_lists (starship : dict) : bool :=
  is_bucket (starship !! "intruder") && is_bucket (starship !! "passengers").

(** The people of a boarding list flagged as intruders, and the others. *)
Definition flagged (people : list (value * bool)) : list value :=
  (filter (fun item : value * bool => item.2 = true) people).*1.

Definition unflagged (people : list (value * bool)) : list value :=
  (filter (fun item : value * bool => item.2 = false) people).*1.

(** A bucket key is missing or bound to the empty list. *)
Definition empty_bucket (o : option value) : bool :=
  match o with
  | None | Some (VList []) => true
  | Some _ => false
  end.

(** The [pub_date] of an article, when it has one, is a string that
    [strptime] accepts. *)
Definition pub_date_parses (strptime : string -> option datetime)
    (article : dict) : bool :=
  match article !! "pub_date" with
  | None => true
  | Some (VStr s) => bool_decide (is_Some (strptime s))
  | Some _ => false
  end.

(** No element is [==] to one before it. *)
Definition no_repeats (l : list value) : Prop :=
  forall (pre : list value) (x : value) (post : list value),
    l = pre ++ x :: post -> list_contains pre x = false.

(** The list of captured starships an attacker holds in its docking bay. *)
Definition docked_of (attacker : dict) : option (list value) :=
  match attacker !! "primary_docking_bay" with
  | Some (VDict bay) =>
      match bay !! "docked" with
      | Some (VList l) => Some l
      | _ => None
      end
  | _ => None
  end.

Definition is_Ok {A : Type} (r : result A) : Prop :=
  match r with
  | Ok _ => True
  | Raise _ => False
  end.

(** An article [show_archival_status] can label: its "pub_date" is a
    datetime and its "headline" a dict with a "main" entry. *)
Definition status_ready (article : dict) : bool :=
  match article !! "pub_date", article !! "headline" with
  | Some (VDatetime _), Some (VDict headline) =>
      bool_decide (is_Some (headline !! "main"))
  | _, _ => false
  end.

(** An article ready for conversion and labelling: a string "pub_date" that
    [strptime] accepts and a "headline" dict with a "main" entry. *)
Definition raw_ready (strptime : string -> option datetime) (article : dict)
  : bool :=
  match article !! "pub_date", article !! "headline" with
  | Some (VStr s), Some (VDict headline) =>
      bool_decide (is_Some (strptime s))
      && bool_decide (is_Some (headline !! "main"))
  | _, _ => false
  end.

Definition planet_fields : gset string :=
  {[ "name"; "diameter"; "climate"; "terrain"; "population" ]}.

(** The request [get_homeworld] sends for a string identifier. *)
Definition homeworld_response (requests : value -> option dict -> result value)
    (identifier : string) (url : value) : result value :=
  if str_contains "https://" identifier
  then requests (VStr identifier) None
  else requests url (Some {[ "search" := VStr identifier ]}).

(** The keywords an article carries; none when the key is missing. *)
Definition keywords_of (article : dict) : list value :=
  match article !! "keywords" with
  | Some (VList keywords) => keywords
  | _ => []
  end.

(** A keyword as the NYT export has it: a dict with a string "name" and a
    string "value". *)
Definition keyword_ok (keyword : value) : bool :=
  match keyword with
  | VDict d =>
      match d !! "name", d !! "value" with
      | Some (VStr _), Some (VStr _) => true
      | _, _ => false
      end
  | _ => false
  end.

Definition keywords_ok (article : dict) : bool :=
  match article !! "keywords" with
  | None => true
  | Some (VList keywords) => forallb keyword_ok keywords
  | Some _ => false
  end.

(** A "glocations" keyword whose value contains the location. *)
Definition located (location : string) (keyword : value) : bool :=
  match keyword with
  | VDict d =>
      match d !! "name", d !! "value" with
      | Some (VStr name), Some (VStr v) =>
          String.eqb name "glocations" && str_contains location v
      | _, _ => false
      end
  | _ => false
  end.

(** A byline person with a string "firstname" and a string "lastname". *)
Definition named_person (person : value) : bool :=
  match person with
  | VDict d =>
      match d !! "firstname", d !! "lastname" with
      | Some (VStr _), Some (VStr _) => true
      | _, _ => false
      end
  | _ => false
  end.

(** ** Field projection, as the specification words it *)

Definition starship_defaults : dict :=
  {[ "name" := VStr ""; "model" := VStr ""; "passengers" := VList [];
     "max_atmosphering_speed" := VStr ""; "length" := VStr "" ]}.

(** [out] has exactly the declared keys, each holding the source value when
    the source has the key and the declared default otherwise. *)
Definition projects (defaults source out : dict) : Prop :=
  dom out = dom defaults
  /\ forall (k : string) (d : value),
       defaults !! k = Some d -> out !! k = Some (default d (source !! k)).

Definition starship_fields : gset string :=
  {[ "name"; "model"; "passengers"; "max_atmosphering_speed"; "length" ]}.

Definition person_fields : gset string :=
  {[ "name"; "height"; "mass"; "birth_year"; "eye_color"; "homeworld";
     "dialogue" ]}.

(** ** Sample data *)

Definition SWAPI_PLANETS : value := VStr "https://swapi.py4e.com/api/planets/".

Definition tatooine : dict :=
  {[ "name" := VStr "Tatooine"; "diameter" := VStr "10465";
     "climate" := VStr "arid"; "terrain" := VStr "desert";
     "population" := VStr "200000" ]}.

(** The body of a search response: the matches are under "results". *)
Definition tatooine_envelope : dict :=
  {[ "count" := VNum 1; "next" := VNull; "previous" := VNull;
     "results" := VList [VDict tatooine] ]}.

(** The body of a search response without a match. *)
Definition empty_envelope : dict :=
  {[ "count" := VNum 0; "next" := VNull; "previous" := VNull;
     "results" := VList [] ]}.

(** An endpoint that answers the search for "Tatooine" with
    [tatooine_envelope], every other search with [empty_envelope], and knows
    no resource by its locator. *)
Definition search_endpoint (url : value) (params : option dict) : result value :=
  match params with
  | Some p =>
      if py_eq (default VNull (p !! "search")) (VStr "Tatooine")
      then Ok (VDict tatooine_envelope)
      else Ok (VDict empty_envelope)
  | None => Raise RequestError
  end.

(** An endpoint that serves the planet under every locator and answers no
    search. *)
Definition locator_endpoint (url : value) (params : option dict) : result value :=
  match params with
  | Some _ => Raise RequestError
  | None => Ok (VDict tatooine)
  end.

Definition all_defaults : dict :=
  {[ "name" := VStr ""; "diameter" := VStr ""; "climate" := VStr "";
     "terrain" := VStr ""; "population" := VStr "" ]}.

Definition r2d2 : value := VDict {[ "name" := VStr "R2-D2" ]}.
Definition c3po : value := VDict {[ "name" := VStr "C-3PO" ]}.
Definition vader : value := VDict {[ "name" := VStr "Darth Vader" ]}.

(** A raw starship record, whose "passengers" is a capacity, and what
    [create_starship] makes of it. *)
Definition swapi_rebel_blockade : dict :=
  {[ "name" := VStr "CR90 corvette"; "model" := VStr "CR90 corvette";
     "passengers" := VStr "600"; "crew" := VStr "30-165" ]}.

Definition rebel_blockade : dict := create_starship swapi_rebel_blockade.

Definition boarding : list (value * bool) :=
  [(r2d2, false); (vader, true); (c3po, false)].

Definition luke : dict :=
  {[ "name" := VStr "Luke Skywalker"; "height" := VStr "172";
     "homeworld" := VStr "https://swapi.py4e.com/api/planets/1/" ]}.

(** A [strptime] that knows one timestamp. *)
Definition sample_strptime (s : string) : option datetime :=
  if String.eqb s "2022-01-05T10:00:12+0000"
  then Some (mk_datetime 2022 1 5 10 0 12 0)
  else None.


(** The dialogue table of the SWAPI script. *)
Definition dialogue : dict :=
  {[ "C-3PO" :=
       VList [ VStr "Did you hear that?";
               VStr "They've shut down the main reactor.";
               VStr "We'll be destroyed for sure. This is madness!";
               VStr "We're doomed!";
               VStr "There'll be no escape for the Princess this time.";
               VStr "What's that?" ];
     "R2-D2" :=
       VList [ VStr "beep, beep, boop."; VStr "boop, beep, beep.";
               VStr "boop, beeeep!" ];
     "Darth Vader" := VList [ VStr "sound of evil mechanical breathing" ] ]}.

Definition swapi_r2d2 : dict :=
  {[ "name" := VStr "R2-D2"; "height" := VStr "96";
     "homeworld" := VStr "https://swapi.py4e.com/api/planets/8/" ]}.

Definition leia : dict :=
  {[ "name" := VStr "Leia Organa"; "dialogue" := VList [] ]}.

Definition stardestroyer : dict :=
  create_starship {[ "name" := VStr "Star Destroyer" ]}.

Definition article_calif : dict :=
  {[ "headline" := VDict {[ "main" := VStr "Chips" ]};
     "web_url" := VStr "https://www.nytimes.com/chips.html";
     "pub_date" := VStr "2022-01-05T10:00:12+0000";
     "keywords" :=
       VList [ VDict {[ "name" := VStr "glocations";
                        "value" := VStr "Cupertino (Calif)" ]};
               VDict {[ "name" := VStr "organizations";
                        "value" := VStr "Apple Inc" ]} ];
     "byline" :=
       VDict {[ "person" :=
                  VList [ VDict {[ "firstname" := VStr "ada";
                                   "lastname" := VStr "lovelace" ]} ] ]} ]}.

Definition article_plain : dict :=
  {[ "headline" := VDict {[ "main" := VStr "Notes" ]};
     "web_url" := VStr "https://www.nytimes.com/notes.html";
     "pub_date" := VStr "2022-01-05T10:00:12+0000";
     "keywords" := VList [];
     "byline" := VDict {[ "person" := VList [] ]} ]}.

Definition nyt_sample : list dict := [article_calif; article_plain].

(** An article published in the given year, its date already converted. *)
Definition article_of_year (y : Z) : dict :=
  {[ "headline" := VDict {[ "main" := VStr "Chips" ]};
     "pub_date" := VDatetime (mk_datetime y 6 1 12 0 0 0) ]}.

Definition status_sample : list dict :=
  [article_of_year 2021; article_of_year 2022; article_of_year 2023].

(** [str.title] on a string of ASCII characters: a letter is upper case
    when it follows a character that is not a letter (or starts the string),
    lower case otherwise. *)
Fixpoint title_after (after_letter : bool) (s : string) : string :=
  match s with
  | EmptyString => EmptyString
  | String c s' =>
      let n := N_of_ascii c in
      let upper := ((65 <=? n) && (n <=? 90))%N in
      let lower := ((97 <=? n) && (n <=? 122))%N in
      let c' :=
        if after_letter then (if upper then ascii_of_N (n + 32) else c)
        else (if lower then ascii_of_N (n - 32) else c) in
      String c' (title_after (upper || lower) s')
  end.

Definition sample_title (s : string) : string := title_after false s.

(** * Properties *)

(** ** The exception monad *)

Lemma bind_Ok {A B : Type} (f : A -> result B) (a : A) :
  (Ok a ≫= f) = f a.
Proof. reflexivity. Qed.

Lemma bind_Raise {A B : Type} (f : A -> result B) (e : exn) :
  (Raise e ≫= f) = Raise e.
Proof. reflexivity. Qed.

(** ** The operations on values, run *)

Example str_contains_infix :
  str_contains "https://" "see https://swapi.py4e.com" = true
  /\ str_contains "https://" "http://swapi.py4e.com" = false
  /\ str_contains "" "" = true.
Proof. repeat split; reflexivity. Qed.

Example py_eq_bool_int :
  py_eq (VBool true) (VNum 1) = true
  /\ py_eq (VList [VNum 0; VStr "a"]) (VList [VBool false; VStr "a"]) = true
  /\ py_eq (VStr "1") (VNum 1) = false.
Proof. repeat split; reflexivity. Qed.

Example py_getitem_index :
  py_getitem (VList [VStr "a"; VStr "b"]) (VNum (-1)) = Ok (VStr "b")
  /\ py_getitem (VList []) (VNum 0) = Raise IndexError
  /\ py_getitem VNull (VStr "name") = Raise TypeError
  /\ py_getitem (VDict ∅) (VStr "name") = Raise (KeyError (VStr "name")).
Proof. repeat split; reflexivity. Qed.

Example py_iter_code_points :
  py_iter (VStr "Touché")
  = Ok [VStr "T"; VStr "o"; VStr "u"; VStr "c"; VStr "h"; VStr "é"]
  /\ py_getitem (VStr "Touché") (VNum (-1)) = Ok (VStr "é")
  /\ py_iadd (VList [VStr "n"]) (VStr "né")
     = Ok (VList [VStr "n"; VStr "n"; VStr "é"]).
Proof. repeat split; reflexivity. Qed.

Example datetime_instant_epoch :
  datetime_instant (mk_datetime 1970 1 1 0 0 0 0) = 0
  /\ datetime_instant (mk_datetime 2022 1 5 10 0 12 0)
     = datetime_instant (mk_datetime 2022 1 5 5 0 12 (-18000)).
Proof. split; reflexivity. Qed.

(** ** Fetching and projecting SWAPI resources *)

(** C1. A planet name is looked up by search, the search response is an
    envelope, and [get_homeworld] reads the five fields off the envelope
    itself: every field of the record it returns is the default. *)
Theorem get_homeworld_by_name_defaults :
  get_homeworld search_endpoint (VStr "Tatooine") SWAPI_PLANETS = Ok all_defaults
  /\ all_defaults <> tatooine.
Proof.
  split; [reflexivity|].
  intros Heq. apply (f_equal (fun d : dict => d !! "name")) in Heq.
  discriminate Heq.
Qed.

(** When the response body is the planet record itself, as for a fetch by
    locator, the thinned record has the record's values. *)
Lemma get_homeworld_bare_record (requests : value -> option dict -> result value)
    (url : value) (planet : dict) :
  requests url (Some {[ "search" := VStr "Tatooine" ]}) = Ok (VDict planet) ->
  get_homeworld requests (VStr "Tatooine") url
  = Ok {[ "name" := default (VStr "") (planet !! "name");
          "diameter" := default (VStr "") (planet !! "diameter");
          "climate" := default (VStr "") (planet !! "climate");
          "terrain" := default (VStr "") (planet !! "terrain");
          "population" := default (VStr "") (planet !! "population") ]}.
Proof.
  intros Hbody. unfold get_homeworld. cbn [py_in].
  change (str_contains "https://" "Tatooine") with false.
  rewrite bind_Ok. cbn beta iota zeta.
  unfold get_swapi_resource.
  change (truthy (VDict {[ "search" := VStr "Tatooine" ]})) with true.
  cbn iota. rewrite Hbody. reflexivity.
Qed.

(** C3. An identifier that merely contains "https://" is fetched as a
    locator: the endpoint that serves locators only is the one that answers,
    and the one that serves searches only is never asked for the name. *)
Theorem get_homeworld_locator_inside :
  String.prefix "https://" "Dagobah https://swapi.py4e.com" = false
  /\ get_homeworld locator_endpoint (VStr "Dagobah https://swapi.py4e.com")
       SWAPI_PLANETS = Ok tatooine
  /\ get_homeworld search_endpoint (VStr "Dagobah https://swapi.py4e.com")
       SWAPI_PLANETS = Raise RequestError.
Proof. repeat split; reflexivity. Qed.

(** Which request [get_homeworld] sends for a string identifier. *)
Lemma get_homeworld_dispatch (requests : value -> option dict -> result value)
    (identifier : string) (url : value) :
  get_homeworld requests (VStr identifier) url
  = if str_contains "https://" identifier
    then get_homeworld (fun _ _ => requests (VStr identifier) None)
           (VStr identifier) url
    else get_homeworld
           (fun _ _ => requests url (Some {[ "search" := VStr identifier ]}))
           (VStr identifier) url.
Proof.
  unfold get_homeworld. cbn [py_in].
  destruct (str_contains "https://" identifier); reflexivity.
Qed.

(** C2, as specified, fails on a starship record that has passengers. *)
Lemma create_starship_not_projection :
  ~ projects starship_defaults {[ "passengers" := VStr "600" ]}
      (create_starship {[ "passengers" := VStr "600" ]}).
Proof.
  intros [_ Hcopy]. specialize (Hcopy "passengers" (VList []) eq_refl).
  discriminate Hcopy.
Qed.

(** A person record without a homeworld makes [create_person] raise. *)
Lemma create_person_without_homeworld
    (requests : value -> option dict -> result value) (person : dict)
    (url : value) :
  person !! "homeworld" = None ->
  create_person requests person url = Raise TypeError.
Proof. intros Hnone. unfold create_person. by rewrite Hnone. Qed.

(** C2, amended. [create_starship] always returns a record with exactly its
    five keys: "passengers" is the empty list whatever the source holds, the
    other four are copied from the source or default to the empty string.
    [create_person] returns exactly when [get_homeworld] does on the source's
    homeworld; the record then has exactly the seven keys: "homeworld" is the
    resolved planet, "dialogue" the empty list, the other five are copied
    from the source or default to the empty string. *)
Theorem field_projection (requests : value -> option dict -> result value)
    (url : value) (starship person : dict) :
  (dom (create_starship starship) = starship_fields
   /\ create_starship starship !! "passengers" = Some (VList [])
   /\ forall k : string,
        k ∈ ["name"; "model"; "max_atmosphering_speed"; "length"] ->
        create_starship starship !! k = Some (default (VStr "") (starship !! k)))
  /\ (forall homeworld : dict,
        get_homeworld requests (default VNull (person !! "homeworld")) url
        = Ok homeworld ->
        exists out : dict,
          create_person requests person url = Ok out
          /\ dom out = person_fields
          /\ out !! "homeworld" = Some (VDict homeworld)
          /\ out !! "dialogue" = Some (VList [])
          /\ forall k : string,
               k ∈ ["name"; "height"; "mass"; "birth_year"; "eye_color"] ->
               out !! k = Some (default (VStr "") (person !! k)))
  /\ (forall e : exn,
        get_homeworld requests (default VNull (person !! "homeworld")) url
        = Raise e ->
        create_person requests person url = Raise e).
Proof.
  split; [|split].
  - split; [|split].
    + unfold create_starship, starship_fields.
      rewrite <- !insert_empty, !dom_insert_L, dom_empty_L. set_solver.
    + reflexivity.
    + intros k Hk. unfold create_starship.
      repeat (apply elem_of_cons in Hk as [->|Hk]; [reflexivity|]).
      by apply elem_of_nil in Hk.
  - intros homeworld Hres. unfold create_person. rewrite Hres, bind_Ok.
    eexists. split; [reflexivity|].
    split; [|split; [reflexivity|split; [reflexivity|]]].
    + unfold person_fields.
      rewrite <- !insert_empty, !dom_insert_L, dom_empty_L. set_solver.
    + intros k Hk.
      repeat (apply elem_of_cons in Hk as [->|Hk]; [reflexivity|]).
      by apply elem_of_nil in Hk.
  - intros e Hres. unfold create_person. by rewrite Hres.
Qed.

(** C5, as specified, fails: the envelope comes back, not its first match. *)
Lemma get_swapi_resource_keeps_envelope :
  get_swapi_resource search_endpoint SWAPI_PLANETS
    (Some {[ "search" := VStr "Tatooine" ]})
  = Ok (VDict tatooine_envelope)
  /\ get_swapi_resource search_endpoint SWAPI_PLANETS
       (Some {[ "search" := VStr "Tatooine" ]})
     <> Ok (VDict tatooine).
Proof.
  split; [reflexivity|]. intros Heq.
  apply (f_equal (fun r : result value =>
                    match r with
                    | Ok (VDict d) => d !! "name"
                    | _ => None
                    end)) in Heq.
  discriminate Heq.
Qed.

(** C5, amended. With a non-empty query [get_swapi_resource] sends the query
    and returns the decoded response body as it is; when that body is an
    envelope whose "results" list is not empty, it is the caller's
    [["results"][0]] that takes the first match out. *)
Theorem get_swapi_resource_body (requests : value -> option dict -> result value)
    (url : value) (params : dict) :
  truthy (VDict params) = true ->
  get_swapi_resource requests url (Some params) = requests url (Some params)
  /\ forall (envelope : dict) (first : value) (rest : list value),
       requests url (Some params) = Ok (VDict envelope) ->
       envelope !! "results" = Some (VList (first :: rest)) ->
       get_swapi_resource requests url (Some params) = Ok (VDict envelope)
       /\ main_first_result requests url params = Ok first.
Proof.
  intros Hquery.
  assert (Hbody : get_swapi_resource requests url (Some params)
                  = requests url (Some params))
    by (unfold get_swapi_resource; by rewrite Hquery).
  split; [exact Hbody|].
  intros envelope first rest Hresp Hresults.
  split; [by rewrite Hbody|].
  unfold main_first_result. rewrite Hbody, Hresp, bind_Ok.
  cbn [py_getitem]. unfold dict_getitem. rewrite Hresults, bind_Ok.
  reflexivity.
Qed.

(** ** Boarding a starship *)

Lemma board_person_spec (starship : dict) (person : value) (is_intruder : bool) :
  buckets_are_lists starship = true ->
  exists starship' : dict,
    board_person starship (person, is_intruder) = Ok starship'
    /\ buckets_are_lists starship' = true
    /\ bucket starship' "intruder"
       = bucket starship "intruder" ++ (if is_intruder then [person] else [])
    /\ bucket starship' "passengers"
       = bucket starship "passengers" ++ (if is_intruder then [] else [person])
    /\ forall k : string,
         k <> "intruder" -> k <> "passengers" -> starship' !! k = starship !! k.
Proof.
  unfold buckets_are_lists, bucket, board_person.
  intros Hok. apply andb_prop in Hok as [Hi Hp].
  destruct is_intruder.
  - destruct (starship !! "intruder") as [[]|] eqn:E; try discriminate Hi;
      simpl; eexists; (split; [reflexivity|]);
      rewrite lookup_insert_eq, lookup_insert_ne by done;
      rewrite Hp, app_nil_r; simpl.
    all: split; [done|]; split; [done|]; split; [done|].
    all: intros k Hk _; by rewrite lookup_insert_ne.
  - destruct (starship !! "passengers") as [[]|] eqn:E; try discriminate Hp;
      simpl; eexists; (split; [reflexivity|]);
      rewrite lookup_insert_eq, lookup_insert_ne by done;
      rewrite Hi, app_nil_r; simpl.
    all: split; [done|]; split; [done|]; split; [done|].
    all: intros k _ Hk; by rewrite lookup_insert_ne.
Qed.

Lemma flagged_cons (person : value) (is_intruder : bool)
    (people : list (value * bool)) :
  flagged ((person, is_intruder) :: people)
  = (if is_intruder then [person] else []) ++ flagged people.
Proof.
  unfold flagged. rewrite filter_cons. simpl.
  destruct is_intruder; case_decide; done.
Qed.

Lemma unflagged_cons (person : value) (is_intruder : bool)
    (people : list (value * bool)) :
  unflagged ((person, is_intruder) :: people)
  = (if is_intruder then [] else [person]) ++ unflagged people.
Proof.
  unfold unflagged. rewrite filter_cons. simpl.
  destruct is_intruder; case_decide; done.
Qed.

Lemma flagged_unflagged_length (people : list (value * bool)) :
  (length (flagged people) + length (unflagged people) = length people)%nat.
Proof.
  induction people as [|[person is_intruder] people IH]; [done|].
  rewrite flagged_cons, unflagged_cons, !length_app.
  destruct is_intruder; simpl; lia.
Qed.

Lemma flagged_unflagged_perm (people : list (value * bool)) :
  flagged people ++ unflagged people ≡ₚ people.*1.
Proof.
  induction people as [|[person is_intruder] people IH]; [done|].
  rewrite flagged_cons, unflagged_cons, fmap_cons. simpl.
  destruct is_intruder; simpl.
  - by rewrite IH.
  - by rewrite <- Permutation_middle, IH.
Qed.

(** C6, as specified, fails on a raw starship record: its "passengers" is a
    capacity, not a list, so the first person who is not flagged makes
    [board_starship] raise and nobody is boarded. *)
Lemma board_starship_raw_record :
  swapi_rebel_blockade !! "passengers" = Some (VStr "600")
  /\ board_starship swapi_rebel_blockade [(r2d2, false); (vader, true)]
     = Raise AttributeError
  /\ ~ exists starship' : dict,
         board_starship swapi_rebel_blockade [(r2d2, false); (vader, true)]
         = Ok starship'.
Proof.
  split; [reflexivity|]. split; [reflexivity|].
  intros [starship' Hrun]. discriminate Hrun.
Qed.

(** C6, amended. On a starship record whose bucket keys, where present,
    hold lists, [board_starship] returns, and splits the boarding list
    completely: the people flagged as intruders are appended, in order, to
    the "intruder" bucket, all the others to the "passengers" bucket, so
    that each item goes to exactly one bucket (the two additions together
    are a rearrangement of the people of the boarding list) and the sizes of
    the two additions sum to the length of the boarding list. *)
Theorem board_starship_partitions (starship : dict) (people : list (value * bool)) :
  buckets_are_lists starship = true ->
  exists starship' : dict,
    board_starship starship people = Ok starship'
    /\ buckets_are_lists starship' = true
    /\ bucket starship' "intruder" = bucket starship "intruder" ++ flagged people
    /\ bucket starship' "passengers"
       = bucket starship "passengers" ++ unflagged people
    /\ flagged people ++ unflagged people ≡ₚ people.*1
    /\ (length (flagged people) + length (unflagged people) = length people)%nat.
Proof.
  unfold board_starship.
  revert starship. induction people as [|[person is_intruder] people IH];
    intros starship Hok.
  - exists starship. simpl. by rewrite !app_nil_r.
  - destruct (board_person_spec starship person is_intruder Hok)
      as (s1 & Hstep & Hok1 & Hi & Hp & _).
    destruct (IH s1 Hok1) as (s2 & Hrun & Hok2 & Hi2 & Hp2 & _).
    exists s2. cbn [foldlM]. rewrite Hstep, bind_Ok.
    split; [exact Hrun|]. split; [exact Hok2|].
    split; [by rewrite Hi2, Hi, flagged_cons, <- app_assoc|].
    split; [by rewrite Hp2, Hp, unflagged_cons, <- app_assoc|].
    split; [apply flagged_unflagged_perm | apply flagged_unflagged_length].
Qed.

(** C7. Boarding [(p1, False), (p2, True)] on a starship record whose two
    buckets are still empty (missing, or the empty list) returns the record
    with "passengers" bound to [p1] and "intruder" to [p2]; every other key
    keeps its value, and from the empty record the result is exactly
    [{"passengers": [p1], "intruder": [p2]}]. *)
Theorem board_starship_scenario (starship : dict) (p1 p2 : value) :
  empty_bucket (starship !! "passengers") = true ->
  empty_bucket (starship !! "intruder") = true ->
  exists starship' : dict,
    board_starship starship [(p1, false); (p2, true)] = Ok starship'
    /\ starship' !! "passengers" = Some (VList [p1])
    /\ starship' !! "intruder" = Some (VList [p2])
    /\ (forall k : string,
          k <> "passengers" -> k <> "intruder" -> starship' !! k = starship !! k)
    /\ dom starship' = {[ "passengers"; "intruder" ]} ∪ dom starship
    /\ (starship = ∅ ->
        starship' = {[ "passengers" := VList [p1]; "intruder" := VList [p2] ]}).
Proof.
  intros Hp Hi.
  exists (<["intruder" := VList [p2]]> (<["passengers" := VList [p1]]> starship)).
  split.
  - unfold board_starship. cbn [foldlM board_person].
    destruct (starship !! "passengers") as [[| | | |[|]| |]|] eqn:Ep;
      try discriminate Hp; simpl;
      rewrite lookup_insert_ne by done;
      destruct (starship !! "intruder") as [[| | | |[|]| |]|] eqn:Ei;
      try discriminate Hi; reflexivity.
  - split; [by rewrite lookup_insert_ne, lookup_insert_eq|].
    split; [by rewrite lookup_insert_eq|].
    split; [intros k Hk1 Hk2; by rewrite !lookup_insert_ne|].
    split; [rewrite !dom_insert_L; set_solver|].
    intros ->. by rewrite insert_insert_ne, !insert_empty.
Qed.

(** ** Filtering the keys of articles *)

(** C9. Filtering with no excluded key gives the collection back. *)
Theorem filter_articles_nil (data : list dict) : filter_articles data [] = data.
Proof.
  unfold filter_articles. induction data as [|article data IH]; [done|].
  rewrite fmap_cons, IH. f_equal.
  apply map_filter_id. intros k v _. simpl. apply not_elem_of_nil.
Qed.

(** ** Converting the publication dates *)

Section ConvertDates.

Variable strptime : string -> option datetime.

Lemma convert_items_other (items : list (string * value)) (acc : dict) :
  "pub_date" ∉ items.*1 -> foldlM (convert_item strptime) acc items = Ok acc.
Proof.
  revert acc. induction items as [|[key v] items IH]; intros acc Hnot; [done|].
  rewrite fmap_cons, not_elem_of_cons in Hnot. destruct Hnot as [Hne Hnot].
  cbn [foldlM convert_item]. simpl in Hne.
  destruct (String.eqb_spec key "pub_date") as [->|_]; [done|].
  rewrite bind_Ok. by apply IH.
Qed.

Lemma convert_items_spec (items : list (string * value)) (acc : dict) :
  NoDup items.*1 ->
  foldlM (convert_item strptime) acc items
  = match (list_to_map items : dict) !! "pub_date" with
    | None => Ok acc
    | Some v => t ← py_strptime strptime v; Ok (<["pub_date" := t]> acc)
    end.
Proof.
  revert acc. induction items as [|[key v] items IH]; intros acc Hnd; [done|].
  rewrite fmap_cons in Hnd. apply NoDup_cons in Hnd as [Hfresh Hnd].
  cbn [foldlM convert_item list_to_map foldr fst snd uncurry]. simpl in Hfresh.
  destruct (String.eqb_spec key "pub_date") as [->|Hne].
  - rewrite lookup_insert_eq. cbn [fst snd].
    destruct (py_strptime strptime v) as [t|e]; [|reflexivity].
    rewrite !bind_Ok. by apply convert_items_other.
  - rewrite bind_Ok, lookup_insert_ne by done. by apply IH.
Qed.

(** What [convert_published_date_value] does to one article. *)
Lemma convert_article_spec (article : dict) :
  convert_article strptime article
  = match article !! "pub_date" with
    | None => Ok article
    | Some v => t ← py_strptime strptime v; Ok (<["pub_date" := t]> article)
    end.
Proof.
  unfold convert_article.
  rewrite convert_items_spec by apply NoDup_fst_map_to_list.
  by rewrite list_to_map_to_list.
Qed.



End ConvertDates.

(** ** Missing fields in article records *)

(** C4, as specified, fails: a record without the headline, or without the
    keywords, makes the direct subscripts raise [KeyError]. *)
Lemma missing_field_raises :
  create_headline_url_list [∅] = Raise (KeyError (VStr "headline"))
  /\ remove_empty_keywords_articles [∅] = Raise (KeyError (VStr "keywords")).
Proof. split; reflexivity. Qed.

(** Inside a keyword, [get_news_by_location] subscripts as well. *)
Lemma get_news_by_location_nameless_keyword :
  get_news_by_location [{[ "keywords" := VList [VDict ∅] ]}] "Calif"
  = Raise (KeyError (VStr "name")).
Proof. reflexivity. Qed.

Lemma create_headline_url_list_cons (article : dict) (data : list dict) :
  create_headline_url_list (article :: data)
  = (headline ← dict_getitem article "headline";
     main ← py_getitem headline (VStr "main");
     web_url ← dict_getitem article "web_url";
     rest ← create_headline_url_list data;
     Ok ((main, web_url) :: rest)).
Proof.
  unfold create_headline_url_list. cbn [mapM].
  destruct (dict_getitem article "headline") as [headline|]; [|done].
  rewrite !bind_Ok.
  destruct (py_getitem headline (VStr "main")) as [main|]; [|done].
  rewrite !bind_Ok.
  destruct (dict_getitem article "web_url") as [web_url|]; done.
Qed.

(** C4, amended. A record without the keywords key contributes nothing to
    [get_news_by_location] and to [get_organization_names], and raises
    nothing there.  [create_headline_url_list] raises on a collection that
    holds a record without the headline key: [KeyError] for that key when
    the records before it are read without an exception.
    [remove_empty_keywords_articles] raises [KeyError] for the keywords key
    on every collection that holds a record without it. *)
Theorem missing_fields (article : dict) (data : list dict) (location : string) :
  (article !! "keywords" = None ->
   get_news_by_location (article :: data) location
   = get_news_by_location data location
   /\ get_organization_names article = Ok [])
  /\ (article ∈ data -> article !! "headline" = None ->
      exists e : exn, create_headline_url_list data = Raise e)
  /\ (forall (before after : list dict) (out : list (value * value)),
        article !! "headline" = None ->
        create_headline_url_list before = Ok out ->
        create_headline_url_list (before ++ article :: after)
        = Raise (KeyError (VStr "headline")))
  /\ (article ∈ data -> article !! "keywords" = None ->
      remove_empty_keywords_articles data
      = Raise (KeyError (VStr "keywords"))).
Proof.
  split; [|split; [|split]].
  - intros Hnone. split.
    + cbn [get_news_by_location]. rewrite Hnone. simpl.
      by destruct (get_news_by_location data location).
    + unfold get_organization_names. by rewrite Hnone.
  - intros Hin Hnone. induction data as [|a data IH];
      [by apply elem_of_nil in Hin|].
    rewrite create_headline_url_list_cons.
    apply elem_of_cons in Hin as [<-|Hin].
    + unfold dict_getitem. rewrite Hnone. by eexists.
    + destruct (IH Hin) as [e He]. rewrite He.
      destruct (dict_getitem a "headline") as [headline|]; [|by eexists].
      rewrite bind_Ok.
      destruct (py_getitem headline (VStr "main")) as [main|]; [|by eexists].
      rewrite bind_Ok.
      destruct (dict_getitem a "web_url") as [web_url|]; by eexists.
  - intros before after out Hnone. revert out.
    induction before as [|a before IH]; intros out Hrun.
    + cbn [app]. rewrite create_headline_url_list_cons.
      unfold dict_getitem. by rewrite Hnone.
    + cbn [app]. rewrite create_headline_url_list_cons in *.
      destruct (dict_getitem a "headline") as [headline|]; [|done].
      rewrite bind_Ok in *.
      destruct (py_getitem headline (VStr "main")) as [main|]; [|done].
      rewrite bind_Ok in *.
      destruct (dict_getitem a "web_url") as [web_url|]; [|done].
      rewrite bind_Ok in *.
      destruct (create_headline_url_list before) as [rest|]; [|done].
      by rewrite (IH rest eq_refl).
  - intros Hin Hnone. induction data as [|a data IH];
      [by apply elem_of_nil in Hin|].
    cbn [remove_empty_keywords_articles]. unfold dict_getitem.
    apply elem_of_cons in Hin as [<-|Hin].
    + by rewrite Hnone.
    + rewrite (IH Hin). by destruct (a !! "keywords").
Qed.

(** ** Collecting unique values *)

Lemma no_repeats_nil : no_repeats [].
Proof. intros [|] x post Heq; discriminate Heq. Qed.

Lemma no_repeats_snoc (acc : list value) (x : value) :
  no_repeats acc -> list_contains acc x = false -> no_repeats (acc ++ [x]).
Proof.
  intros Hacc Hnew pre y post Heq.
  destruct post as [|z post _] using rev_ind.
  - apply app_inj_tail in Heq as [-> ->]. exact Hnew.
  - rewrite app_comm_cons, app_assoc in Heq.
    apply app_inj_tail in Heq as [Heq _]. by apply (Hacc pre y post).
Qed.

Lemma foldlM_invariant {A B : Type} (P : B -> Prop) (f : B -> A -> result B)
    (l : list A) (acc out : B) :
  (forall (b : B) (a : A) (b' : B), P b -> f b a = Ok b' -> P b') ->
  P acc -> foldlM f acc l = Ok out -> P out.
Proof.
  intros Hstep. revert acc. induction l as [|a l IH]; intros acc Hacc Hrun.
  - injection Hrun as <-. exact Hacc.
  - cbn [foldlM] in Hrun. destruct (f acc a) as [b|] eqn:Hf; [|done].
    rewrite bind_Ok in Hrun. by apply (IH b), Hrun; apply (Hstep acc a).
Qed.

Lemma fold_left_invariant {A B : Type} (P : B -> Prop) (f : B -> A -> B)
    (l : list A) (acc : B) :
  (forall (b : B) (a : A), P b -> P (f b a)) -> P acc -> P (fold_left f l acc).
Proof.
  intros Hstep. revert acc. induction l as [|a l IH]; intros acc Hacc; [done|].
  simpl. by apply IH, Hstep.
Qed.

Lemma add_organization_no_repeats (acc : list value) (name : value) :
  no_repeats acc -> no_repeats (add_organization acc name).
Proof.
  intros Hacc. unfold add_organization.
  destruct (list_contains acc name) eqn:Hin; [done|].
  by apply no_repeats_snoc.
Qed.

Lemma add_author_no_repeats (acc : list value) (author : value) :
  no_repeats acc -> no_repeats (add_author acc author).
Proof.
  intros Hacc. unfold add_author.
  destruct (is_not_none author); [|done].
  destruct (list_contains acc author) eqn:Hin; [done|].
  by apply no_repeats_snoc.
Qed.

Lemma add_author_not_none (acc : list value) (author : value) :
  Forall (fun x => is_not_none x = true) acc ->
  Forall (fun x => is_not_none x = true) (add_author acc author).
Proof.
  intros Hacc. unfold add_author.
  destruct (is_not_none author) eqn:Hnn; [|done].
  destruct (list_contains acc author); [done|].
  apply Forall_app. split; [done|]. by apply Forall_singleton.
Qed.

(** Both loops of [main] collect without repeats. *)
Lemma tech_organizations_no_repeats (nyt_tech : list dict) (out : list value) :
  tech_organizations nyt_tech = Ok out -> no_repeats out.
Proof.
  apply foldlM_invariant; [|apply no_repeats_nil].
  intros acc article acc' Hacc Hstep.
  destruct (get_organization_names article) as [org_names|]; [|done].
  rewrite bind_Ok in Hstep.
  destruct (truthy (VList org_names)); injection Hstep as <-; [|done].
  apply fold_left_invariant; [|done].
  intros b name. apply add_organization_no_repeats.
Qed.

Lemma unique_authors_no_repeats (str_title : string -> string)
    (nyt_tech : list dict) (out : list value) :
  unique_authors str_title nyt_tech = Ok out ->
  no_repeats out /\ Forall (fun x => is_not_none x = true) out.
Proof.
  apply (foldlM_invariant
           (fun l => no_repeats l /\ Forall (fun x => is_not_none x = true) l));
    [|split; [apply no_repeats_nil|done]].
  intros acc article acc' Hacc Hstep.
  destruct (get_author_names str_title article) as [authors|]; [|done].
  rewrite bind_Ok in Hstep.
  destruct (truthy (VList authors)); injection Hstep as <-; [|done].
  apply fold_left_invariant; [|done].
  intros b author [Hb1 Hb2].
  split; [by apply add_author_no_repeats | by apply add_author_not_none].
Qed.

(** Values seen as a, b, a, c are kept as a, b, c. *)
Lemma tech_organizations_first_seen :
  tech_organizations
    [ {[ "keywords" :=
           VList [ VDict {[ "name" := VStr "organizations"; "value" := VStr "a" ]};
                   VDict {[ "name" := VStr "organizations"; "value" := VStr "b" ]} ] ]};
      {[ "keywords" :=
           VList [ VDict {[ "name" := VStr "organizations"; "value" := VStr "a" ]};
                   VDict {[ "name" := VStr "subject"; "value" := VStr "x" ]};
                   VDict {[ "name" := VStr "organizations"; "value" := VStr "c" ]} ] ]} ]
  = Ok [VStr "a"; VStr "b"; VStr "c"].
Proof. reflexivity. Qed.

(** C8. The loop that collects the organizations has no test for [None]: a
    null organization value is appended like any other. *)
Theorem tech_organizations_keeps_null :
  tech_organizations
    [ {[ "keywords" :=
           VList [ VDict {[ "name" := VStr "organizations";
                            "value" := VNull ]} ] ]} ]
  = Ok [VNull].
Proof. reflexivity. Qed.

(** ** Runs on the sample data *)

Lemma field_projection_witness :
  exists out : dict,
    create_person locator_endpoint luke SWAPI_PLANETS = Ok out
    /\ dom out = person_fields
    /\ out !! "homeworld" = Some (VDict tatooine)
    /\ out !! "dialogue" = Some (VList []).
Proof.
  destruct (field_projection locator_endpoint SWAPI_PLANETS
              swapi_rebel_blockade luke) as (_ & Hperson & _).
  destruct (Hperson tatooine) as (out & Hrun & Hdom & Hhome & Hdialogue & _);
    [reflexivity|].
  exists out. repeat split; assumption.
Defined.

Lemma get_swapi_resource_body_witness :
  truthy (VDict {[ "search" := VStr "Tatooine" ]}) = true
  /\ get_swapi_resource search_endpoint SWAPI_PLANETS
       (Some {[ "search" := VStr "Tatooine" ]})
     = Ok (VDict tatooine_envelope)
  /\ main_first_result search_endpoint SWAPI_PLANETS
       {[ "search" := VStr "Tatooine" ]}
     = Ok (VDict tatooine).
Proof.
  split; [reflexivity|].
  destruct (get_swapi_resource_body search_endpoint SWAPI_PLANETS
              {[ "search" := VStr "Tatooine" ]}) as [_ Hfirst];
    [reflexivity|].
  apply (Hfirst tatooine_envelope (VDict tatooine) []); reflexivity.
Defined.

Lemma board_starship_partitions_witness :
  buckets_are_lists rebel_blockade = true
  /\ exists starship' : dict,
       board_starship rebel_blockade boarding = Ok starship'
       /\ bucket starship' "intruder" = [vader]
       /\ bucket starship' "passengers" = [r2d2; c3po].
Proof.
  split; [reflexivity|].
  destruct (board_starship_partitions rebel_blockade boarding)
    as (starship' & Hrun & _ & Hintruder & Hpassengers & _); [reflexivity|].
  exists starship'. repeat split; assumption.
Defined.

Lemma board_starship_scenario_witness :
  empty_bucket (rebel_blockade !! "passengers") = true
  /\ empty_bucket (rebel_blockade !! "intruder") = true
  /\ exists starship' : dict,
       board_starship rebel_blockade [(r2d2, false); (vader, true)]
       = Ok starship'
       /\ starship' !! "passengers" = Some (VList [r2d2])
       /\ starship' !! "intruder" = Some (VList [vader])
       /\ starship' !! "name" = Some (VStr "CR90 corvette").
Proof.
  split; [reflexivity|]. split; [reflexivity|].
  destruct (board_starship_scenario rebel_blockade r2d2 vader)
    as (starship' & Hrun & Hpassengers & Hintruder & Hframe & _);
    [reflexivity | reflexivity |].
  exists starship'. repeat split; try assumption.
  rewrite Hframe by discriminate. reflexivity.
Defined.


Lemma missing_fields_witness :
  get_news_by_location [∅; ∅] "Calif" = get_news_by_location [∅] "Calif"
  /\ get_organization_names ∅ = Ok []
  /\ (exists e : exn, create_headline_url_list [∅] = Raise e)
  /\ create_headline_url_list
       [{[ "headline" := VDict {[ "main" := VStr "Chips" ]};
           "web_url" := VStr "https://www.nytimes.com/chips.html" ]}; ∅]
     = Raise (KeyError (VStr "headline"))
  /\ remove_empty_keywords_articles [∅] = Raise (KeyError (VStr "keywords")).
Proof.
  destruct (missing_fields ∅ [∅] "Calif")
    as (Hnews & Hheadline & Hfirst & Hkeywords).
  destruct Hnews as [Hnews Horgs]; [reflexivity|].
  split; [exact Hnews|]. split; [exact Horgs|].
  split; [apply Hheadline; [apply list_elem_of_here | reflexivity]|].
  split.
  - apply (Hfirst
             [{[ "headline" := VDict {[ "main" := VStr "Chips" ]};
                 "web_url" := VStr "https://www.nytimes.com/chips.html" ]}]
             []
             [(VStr "Chips", VStr "https://www.nytimes.com/chips.html")]);
      reflexivity.
  - apply Hkeywords; [apply list_elem_of_here | reflexivity].
Defined.

(** * Further properties of the two scripts *)

(** ** Boarding, continued *)

Lemma foldlM_app {A B : Type} (f : B -> A -> result B) (acc : B) (l1 l2 : list A) :
  foldlM f acc (l1 ++ l2) = (acc' ← foldlM f acc l1; foldlM f acc' l2).
Proof.
  revert acc. induction l1 as [|x l1 IH]; intros acc; [done|].
  cbn [app foldlM]. destruct (f acc x) as [b|e]; [|done].
  rewrite !bind_Ok. apply IH.
Qed.

(** X1. Boarding two lists one after the other is boarding their
    concatenation: the calls of [main] on the same starship add up. *)
Theorem board_starship_app (starship : dict) (first second : list (value * bool)) :
  board_starship starship (first ++ second)
  = (starship' ← board_starship starship first; board_starship starship' second).
Proof. apply foldlM_app. Qed.

Lemma board_person_frame (starship starship' : dict) (item : value * bool) :
  board_person starship item = Ok starship' ->
  (forall k : string,
     k <> "intruder" -> k <> "passengers" -> starship' !! k = starship !! k)
  /\ dom starship ⊆ dom starship'.
Proof.
  destruct item as [person is_intruder]. unfold board_person.
  destruct is_intruder.
  - destruct (starship !! "intruder") as [b|] eqn:E.
    + destruct (py_append b person) as [b'|]; [|done].
      rewrite bind_Ok. intros [= <-].
      split; [intros k Hk _; by rewrite lookup_insert_ne|].
      rewrite dom_insert_L. set_solver.
    + intros [= <-].
      split; [intros k Hk _; by rewrite lookup_insert_ne|].
      rewrite dom_insert_L. set_solver.
  - destruct (starship !! "passengers") as [b|] eqn:E.
    + destruct (py_append b person) as [b'|]; [|done].
      rewrite bind_Ok. intros [= <-].
      split; [intros k _ Hk; by rewrite lookup_insert_ne|].
      rewrite dom_insert_L. set_solver.
    + intros [= <-].
      split; [intros k _ Hk; by rewrite lookup_insert_ne|].
      rewrite dom_insert_L. set_solver.
Qed.

(** X2. Whatever the boarding list, [board_starship] touches the two bucket
    keys only: when it returns, every other key of the starship has the
    value it had, and no key has been removed. *)
Theorem board_starship_frame (starship starship' : dict)
    (people : list (value * bool)) :
  board_starship starship people = Ok starship' ->
  (forall k : string,
     k <> "intruder" -> k <> "passengers" -> starship' !! k = starship !! k)
  /\ dom starship ⊆ dom starship'.
Proof.
  unfold board_starship. revert starship.
  induction people as [|item people IH]; intros starship Hrun.
  - injection Hrun as <-. done.
  - cbn [foldlM] in Hrun.
    destruct (board_person starship item) as [s1|] eqn:Hstep; [|done].
    rewrite bind_Ok in Hrun.
    destruct (board_person_frame _ _ _ Hstep) as [Hf1 Hd1].
    destruct (IH _ Hrun) as [Hf2 Hd2].
    split; [|set_solver].
    intros k Hk1 Hk2. by rewrite Hf2, Hf1.
Qed.

Lemma board_starship_run (starship : dict) (people : list (value * bool)) :
  buckets_are_lists starship = true ->
  exists starship' : dict,
    board_starship starship people = Ok starship'
    /\ buckets_are_lists starship' = true
    /\ bucket starship' "intruder" = bucket starship "intruder" ++ flagged people
    /\ bucket starship' "passengers"
       = bucket starship "passengers" ++ unflagged people
    /\ dom starship ⊆ dom starship'
    /\ (starship !! "intruder" = None -> flagged people = [] ->
        starship' !! "intruder" = None).
Proof.
  unfold board_starship. revert starship.
  induction people as [|[person is_intruder] people IH]; intros starship Hok.
  - exists starship. simpl. by rewrite !app_nil_r.
  - destruct (board_person_spec starship person is_intruder Hok)
      as (s1 & Hstep & Hok1 & Hi & Hp & Hframe).
    destruct (IH s1 Hok1) as (s2 & Hrun & Hok2 & Hi2 & Hp2 & Hdom & Hnone).
    exists s2. cbn [foldlM]. rewrite Hstep, bind_Ok.
    split; [exact Hrun|]. split; [exact Hok2|].
    split; [by rewrite Hi2, Hi, flagged_cons, <- app_assoc|].
    split; [by rewrite Hp2, Hp, unflagged_cons, <- app_assoc|].
    split; [apply board_person_frame in Hstep as [_ Hd1]; set_solver|].
    intros Hnone0 Hflag. rewrite flagged_cons in Hflag.
    destruct is_intruder; [discriminate Hflag|]. simpl in Hflag.
    apply Hnone; [|exact Hflag].
    unfold board_person in Hstep.
    destruct (starship !! "passengers") as [b|].
    + destruct (py_append b person); [|done].
      injection Hstep as <-. by rewrite lookup_insert_ne.
    + injection Hstep as <-. by rewrite lookup_insert_ne.
Qed.

Lemma bucket_lookup (starship : dict) (k : string) :
  is_bucket (starship !! k) = true -> is_Some (starship !! k) ->
  starship !! k = Some (VList (bucket starship k)).
Proof.
  unfold bucket. intros Hb [v Hv]. rewrite Hv in *.
  by destruct v.
Qed.

(** X3. A starship made by [create_starship] can always be boarded: the call
    returns, "passengers" holds exactly the people not flagged, in order,
    and "intruder" holds exactly the flagged ones; when nobody is flagged
    there is no "intruder" key at all. *)
Theorem board_created_starship (source : dict) (people : list (value * bool)) :
  exists starship' : dict,
    board_starship (create_starship source) people = Ok starship'
    /\ starship' !! "passengers" = Some (VList (unflagged people))
    /\ bucket starship' "intruder" = flagged people
    /\ (flagged people = [] <-> starship' !! "intruder" = None).
Proof.
  destruct (board_starship_run (create_starship source) people eq_refl)
    as (s' & Hrun & Hok & Hi & Hp & Hdom & Hnone).
  exists s'. split; [exact Hrun|].
  change (bucket (create_starship source) "intruder") with (@nil value) in Hi.
  change (bucket (create_starship source) "passengers") with (@nil value) in Hp.
  simpl in Hi, Hp.
  apply andb_prop in Hok as [Hoki Hokp].
  split; [|split; [exact Hi|split]].
  - rewrite <- Hp. apply bucket_lookup; [exact Hokp|].
    apply elem_of_dom, Hdom, elem_of_dom. by eexists.
  - intros Hflag. by apply Hnone.
  - intros Hnone'. rewrite <- Hi. unfold bucket. by rewrite Hnone'.
Qed.

(** X4. A starship whose "passengers" value is not a list (a raw SWAPI
    record holds a capacity there) cannot take a passenger: as soon as the
    boarding list has somebody who is not flagged, [board_starship] raises
    [AttributeError]. *)
Theorem board_starship_bad_bucket (starship : dict) (v : value)
    (people : list (value * bool)) :
  starship !! "passengers" = Some v ->
  (forall l : list value, v <> VList l) ->
  (exists person : value, (person, false) ∈ people) ->
  board_starship starship people = Raise AttributeError.
Proof.
  unfold board_starship. intros Hv Hnot. revert starship Hv.
  induction people as [|[person is_intruder] people IH];
    intros starship Hv [p Hp]; [by apply elem_of_nil in Hp|].
  cbn [foldlM board_person]. destruct is_intruder.
  - assert (Hrest : exists person : value, (person, false) ∈ people).
    { apply elem_of_cons in Hp as [[= ]|Hp]. by exists p. }
    destruct (starship !! "intruder") as [b|] eqn:Ei.
    + destruct b; try reflexivity. simpl.
      apply IH; [by rewrite lookup_insert_ne | exact Hrest].
    + rewrite bind_Ok. apply IH; [by rewrite lookup_insert_ne | exact Hrest].
  - rewrite Hv. destruct v; try reflexivity. by destruct (Hnot l).
Qed.

(** ** Capturing a starship *)

Lemma capture_starship_first (attacker : dict) (prey : value) :
  attacker !! "primary_docking_bay" = None ->
  capture_starship attacker prey
  = Ok (<["primary_docking_bay" := VDict {[ "docked" := VList [prey] ]}]>
          attacker).
Proof. unfold capture_starship. by intros ->. Qed.

Lemma capture_starship_next (attacker : dict) (done : list value) (prey : value) :
  attacker !! "primary_docking_bay" = Some (VDict {[ "docked" := VList done ]}) ->
  capture_starship attacker prey
  = Ok (<["primary_docking_bay" :=
            VDict {[ "docked" := VList (done ++ [prey]) ]}]> attacker).
Proof.
  unfold capture_starship. intros ->. unfold dict_getitem.
  rewrite lookup_singleton_eq. simpl. by rewrite insert_singleton_eq.
Qed.

(** X5. Captures add up in the docking bay: starting from an attacker that
    has no "primary_docking_bay" yet, capturing a non-empty list of
    starships one after the other returns, leaves exactly those starships
    under "docked", in the order of capture, and leaves every other key of
    the attacker alone. *)
Theorem capture_starship_all (attacker : dict) (prey : value)
    (more : list value) :
  attacker !! "primary_docking_bay" = None ->
  exists attacker' : dict,
    foldlM capture_starship attacker (prey :: more) = Ok attacker'
    /\ attacker' !! "primary_docking_bay"
       = Some (VDict {[ "docked" := VList (prey :: more) ]})
    /\ forall k : string,
         k <> "primary_docking_bay" -> attacker' !! k = attacker !! k.
Proof.
  intros Hnone. cbn [foldlM].
  rewrite (capture_starship_first _ _ Hnone), bind_Ok.
  set (a1 := <["primary_docking_bay" := _]> attacker).
  assert (Hgen : forall (preys done : list value) (a : dict),
             a !! "primary_docking_bay"
             = Some (VDict {[ "docked" := VList done ]}) ->
             exists a' : dict,
               foldlM capture_starship a preys = Ok a'
               /\ a' !! "primary_docking_bay"
                  = Some (VDict {[ "docked" := VList (done ++ preys) ]})
               /\ forall k : string,
                    k <> "primary_docking_bay" -> a' !! k = a !! k).
  { induction preys as [|p preys IH]; intros done a Ha.
    - exists a. by rewrite app_nil_r.
    - cbn [foldlM]. rewrite (capture_starship_next a done p Ha), bind_Ok.
      destruct (IH (done ++ [p])
                  (<["primary_docking_bay" :=
                       VDict {[ "docked" := VList (done ++ [p]) ]}]> a))
        as (a' & Hrun & Hbay & Hframe); [by rewrite lookup_insert_eq|].
      exists a'. split; [exact Hrun|].
      split; [by rewrite Hbay, <- app_assoc|].
      intros k Hk. rewrite Hframe by done. by rewrite lookup_insert_ne. }
  destruct (Hgen more [prey] a1) as (a' & Hrun & Hbay & Hframe);
    [by apply lookup_insert_eq|].
  exists a'. split; [exact Hrun|]. split; [exact Hbay|].
  intros k Hk. rewrite Hframe by done. by apply lookup_insert_ne.
Qed.

(** X6. [capture_starship] returns exactly when the attacker has no docking
    bay yet, or has one that is a dict whose "docked" value is a list; a bay
    without "docked" raises [KeyError], a "docked" that is not a list
    [AttributeError], a bay that is not a dict [TypeError]. *)
Theorem capture_starship_returns (attacker : dict) (prey : value) :
  (is_Ok (capture_starship attacker prey)
   <-> attacker !! "primary_docking_bay" = None
       \/ exists l : list value, docked_of attacker = Some l)
  /\ (forall bay : dict,
        attacker !! "primary_docking_bay" = Some (VDict bay) ->
        bay !! "docked" = None ->
        capture_starship attacker prey = Raise (KeyError (VStr "docked")))
  /\ (forall (bay : dict) (v : value),
        attacker !! "primary_docking_bay" = Some (VDict bay) ->
        bay !! "docked" = Some v -> (forall l : list value, v <> VList l) ->
        capture_starship attacker prey = Raise AttributeError)
  /\ (forall v : value,
        attacker !! "primary_docking_bay" = Some v ->
        (forall bay : dict, v <> VDict bay) ->
        capture_starship attacker prey = Raise TypeError).
Proof.
  split; [|split; [|split]].
  - unfold capture_starship, docked_of, dict_getitem.
    destruct (attacker !! "primary_docking_bay") as [w|]; [|naive_solver].
    destruct w as [| | | | |bay|]; simpl; try naive_solver.
    destruct (bay !! "docked") as [d|]; simpl; [|naive_solver].
    destruct d; simpl; naive_solver.
  - intros bay Hbay Hnone. unfold capture_starship, dict_getitem.
    by rewrite Hbay, Hnone.
  - intros bay v Hbay Hv Hnot. unfold capture_starship, dict_getitem.
    rewrite Hbay, Hv. destruct v as [| | | |l| |]; try reflexivity.
    by destruct (Hnot l).
  - intros v Hbay Hnot. unfold capture_starship. rewrite Hbay.
    destruct v as [| | | | |bay|]; try reflexivity.
    by destruct (Hnot bay).
Qed.

Lemma capture_starship_step (attacker bay : dict) (docked : list value)
    (prey : value) :
  attacker !! "primary_docking_bay" = Some (VDict bay) ->
  bay !! "docked" = Some (VList docked) ->
  capture_starship attacker prey
  = Ok (<["primary_docking_bay" :=
            VDict (<["docked" := VList (docked ++ [prey])]> bay)]> attacker).
Proof.
  intros Hbay Hdocked. unfold capture_starship, dict_getitem.
  by rewrite Hbay, Hdocked.
Qed.

(** X7. On an attacker that already has a docking bay with a "docked" list,
    further captures are appended to that list in order; the other keys of
    the bay and of the attacker keep their values. *)
Theorem capture_starship_appends (attacker bay : dict) (docked preys : list value) :
  attacker !! "primary_docking_bay" = Some (VDict bay) ->
  bay !! "docked" = Some (VList docked) ->
  exists attacker' bay' : dict,
    foldlM capture_starship attacker preys = Ok attacker'
    /\ attacker' !! "primary_docking_bay" = Some (VDict bay')
    /\ bay' !! "docked" = Some (VList (docked ++ preys))
    /\ (forall k : string, k <> "docked" -> bay' !! k = bay !! k)
    /\ forall k : string,
         k <> "primary_docking_bay" -> attacker' !! k = attacker !! k.
Proof.
  revert attacker bay docked.
  induction preys as [|p preys IH]; intros attacker bay docked Hbay Hdocked.
  - exists attacker, bay. by rewrite app_nil_r.
  - cbn [foldlM].
    rewrite (capture_starship_step _ _ _ p Hbay Hdocked), bind_Ok.
    destruct (IH (<["primary_docking_bay" :=
                      VDict (<["docked" := VList (docked ++ [p])]> bay)]>
                    attacker)
                 (<["docked" := VList (docked ++ [p])]> bay)
                 (docked ++ [p]))
      as (a' & bay' & Hrun & Hbay' & Hdocked' & Hfb & Hfa);
      [by rewrite lookup_insert_eq | by rewrite lookup_insert_eq |].
    exists a', bay'. split; [exact Hrun|]. split; [exact Hbay'|].
    split; [by rewrite Hdocked', <- app_assoc|].
    split.
    + intros k Hk. rewrite Hfb by done. by rewrite lookup_insert_ne.
    + intros k Hk. rewrite Hfa by done. by rewrite lookup_insert_ne.
Qed.

(** ** Inserting dialogue *)

Lemma py_eq_str (v : value) (s : string) : py_eq v (VStr s) = true <-> v = VStr s.
Proof.
  destruct v; simpl; try (split; [discriminate | intros [=]]).
  rewrite String.eqb_eq. split; [by intros -> | by intros [= ->]].
Qed.

Lemma name_is_dec (person : dict) (name : string) :
  person !! "name" = Some (VStr name) \/ person !! "name" <> Some (VStr name).
Proof.
  destruct (py_eq (default VNull (person !! "name")) (VStr name)) eqn:Heq.
  - left. apply py_eq_str in Heq.
    destruct (person !! "name"); simpl in Heq; [by subst | done].
  - right. intros Hn. rewrite Hn in Heq. simpl in Heq.
    by rewrite String.eqb_refl in Heq.
Qed.

Lemma insert_lines_other (person : dict) (name : string) (lines : value) :
  person !! "name" <> Some (VStr name) ->
  insert_lines person (name, lines) = Ok person.
Proof.
  intros Hne. unfold insert_lines.
  destruct (py_eq (default VNull (person !! "name")) (VStr name)) eqn:Heq;
    [|done].
  apply py_eq_str in Heq. destruct (person !! "name"); simpl in Heq; [|done].
  by subst.
Qed.

Lemma insert_items_other (person : dict) (items : list (string * value)) :
  (forall name : string,
     person !! "name" = Some (VStr name) -> name ∉ items.*1) ->
  foldlM insert_lines person items = Ok person.
Proof.
  induction items as [|[name lines] items IH]; intros Hnot; [done|].
  cbn [foldlM]. rewrite insert_lines_other, bind_Ok.
  - apply IH. intros n Hn. specialize (Hnot n Hn).
    rewrite fmap_cons in Hnot. by apply not_elem_of_cons in Hnot as [_ ?].
  - intros Hn. specialize (Hnot name Hn). rewrite fmap_cons in Hnot.
    apply not_elem_of_cons in Hnot as [Hne _]. by apply Hne.
Qed.

Lemma insert_items_spec (person : dict) (items : list (string * value)) :
  NoDup items.*1 ->
  foldlM insert_lines person items
  = match person !! "name" with
    | Some (VStr name) =>
        match (list_to_map items : dict) !! name with
        | Some lines =>
            spoken ← dict_getitem person "dialogue";
            spoken' ← py_iadd spoken lines;
            Ok (<["dialogue" := spoken']> person)
        | None => Ok person
        end
    | _ => Ok person
    end.
Proof.
  induction items as [|[key lines] items IH]; intros Hnd.
  - simpl. by destruct (person !! "name") as [[]|].
  - rewrite fmap_cons in Hnd. apply NoDup_cons in Hnd as [Hfresh Hnd].
    simpl in Hfresh. cbn [foldlM list_to_map foldr fst snd uncurry].
    destruct (name_is_dec person key) as [Hname|Hname].
    + rewrite Hname, lookup_insert_eq. unfold insert_lines.
      rewrite Hname. simpl. rewrite String.eqb_refl.
      destruct (dict_getitem person "dialogue") as [spoken|]; [|done].
      rewrite !bind_Ok.
      destruct (py_iadd spoken lines) as [spoken'|]; [|done].
      rewrite !bind_Ok. apply insert_items_other.
      intros n. rewrite lookup_insert_ne by done. rewrite Hname.
      by intros [= <-].
    + rewrite insert_lines_other, bind_Ok by done. rewrite IH by done.
      destruct (person !! "name") as [[| | |n| | |]|]; try done.
      rewrite lookup_insert_ne; [done|]. by intros ->.
Qed.

(** What [insert_dialogue] does, whatever the order of the table. *)
Lemma insert_dialogue_spec (person dialogue : dict) :
  insert_dialogue person dialogue
  = match person !! "name" with
    | Some (VStr name) =>
        match dialogue !! name with
        | Some lines =>
            spoken ← dict_getitem person "dialogue";
            spoken' ← py_iadd spoken lines;
            Ok (<["dialogue" := spoken']> person)
        | None => Ok person
        end
    | _ => Ok person
    end.
Proof.
  unfold insert_dialogue.
  rewrite insert_items_spec by apply NoDup_fst_map_to_list.
  by rewrite list_to_map_to_list.
Qed.

(** X8. A person whose name is not a key of the dialogue table (or who has
    no name, or a name that is not a string) is returned as it is;
    [insert_dialogue] then never raises, not even when the person has no
    "dialogue" key. *)
Theorem insert_dialogue_other (person dialogue : dict) :
  (forall name : string,
     person !! "name" = Some (VStr name) -> dialogue !! name = None) ->
  insert_dialogue person dialogue = Ok person.
Proof.
  intros Hnot. rewrite insert_dialogue_spec.
  destruct (person !! "name") as [[| | |n| | |]|]; try done.
  by rewrite (Hnot n eq_refl).
Qed.

(** X9. For a person whose name is a key of the table, the lines of that
    entry are appended to the "dialogue" list of the person and nothing else
    changes; the lines add up, they do not replace: a second call appends
    them once more. *)
Theorem insert_dialogue_extends (person dialogue : dict) (name : string)
    (spoken lines : list value) :
  person !! "name" = Some (VStr name) ->
  person !! "dialogue" = Some (VList spoken) ->
  dialogue !! name = Some (VList lines) ->
  insert_dialogue person dialogue
  = Ok (<["dialogue" := VList (spoken ++ lines)]> person)
  /\ (person' ← insert_dialogue person dialogue; insert_dialogue person' dialogue)
     = Ok (<["dialogue" := VList (spoken ++ lines ++ lines)]> person).
Proof.
  intros Hname Hspoken Hlines.
  assert (Hrun : forall (p : dict) (l : list value),
             p !! "name" = Some (VStr name) ->
             p !! "dialogue" = Some (VList l) ->
             insert_dialogue p dialogue
             = Ok (<["dialogue" := VList (l ++ lines)]> p)).
  { intros p l Hn Hl. rewrite insert_dialogue_spec, Hn, Hlines.
    unfold dict_getitem. by rewrite Hl. }
  split; [by apply Hrun|].
  rewrite (Hrun person spoken) by done. rewrite bind_Ok.
  rewrite (Hrun _ (spoken ++ lines));
    [| by rewrite lookup_insert_ne | by rewrite lookup_insert_eq].
  by rewrite insert_insert_eq, <- app_assoc.
Qed.

(** X10. For a person whose name is a key of the table and who has no
    "dialogue" key, [insert_dialogue] raises [KeyError]. *)
Theorem insert_dialogue_no_list (person dialogue : dict) (name : string) :
  person !! "name" = Some (VStr name) ->
  is_Some (dialogue !! name) ->
  person !! "dialogue" = None ->
  insert_dialogue person dialogue = Raise (KeyError (VStr "dialogue")).
Proof.
  intros Hname [lines Hlines] Hnone.
  rewrite insert_dialogue_spec, Hname, Hlines. unfold dict_getitem.
  by rewrite Hnone.
Qed.

Lemma create_person_lookup
    (requests : value -> option dict -> result value) (source person : dict)
    (url : value) :
  create_person requests source url = Ok person ->
  person !! "name" = Some (default (VStr "") (source !! "name"))
  /\ person !! "dialogue" = Some (VList []).
Proof.
  unfold create_person.
  destruct (get_homeworld requests (default VNull (source !! "homeworld")) url)
    as [homeworld|]; [|done].
  rewrite bind_Ok. by intros [= <-].
Qed.

(** X11. On a person made by [create_person], whose "dialogue" starts empty,
    [insert_dialogue] leaves exactly the lines the table has for the name of
    the person. *)
Theorem insert_dialogue_created
    (requests : value -> option dict -> result value) (source person : dict)
    (url : value) (dialogue : dict) (name : string) (lines : list value) :
  create_person requests source url = Ok person ->
  source !! "name" = Some (VStr name) ->
  dialogue !! name = Some (VList lines) ->
  insert_dialogue person dialogue = Ok (<["dialogue" := VList lines]> person).
Proof.
  intros Hmake Hname Hlines.
  apply create_person_lookup in Hmake as [Hn Hd]. rewrite Hname in Hn.
  simpl in Hn.
  rewrite insert_dialogue_spec, Hn, Hlines. unfold dict_getitem.
  by rewrite Hd.
Qed.

(** ** Lists of articles *)

Lemma mapM_Ok_Forall2 {A B : Type} (f : A -> result B) (l : list A) (out : list B) :
  mapM f l = Ok out <-> Forall2 (fun x y => f x = Ok y) l out.
Proof.
  revert out. induction l as [|x l IH]; intros out.
  - split; [intros [= <-]; constructor | by inversion 1].
  - cbn [mapM]. split.
    + destruct (f x) as [y|] eqn:Hf; [|done]. rewrite bind_Ok.
      destruct (mapM f l) as [ys|] eqn:Hm; [|done].
      intros [= <-]. constructor; [done|]. by apply IH.
    + inversion 1 as [|? y ? ys Hf Hrest]; subst. rewrite Hf, bind_Ok.
      apply IH in Hrest.
      change (mapM f l) with (mapM f l) in Hrest.
      by rewrite Hrest.
Qed.

Lemma mapM_Raise_elem {A B : Type} (f : A -> result B) (l : list A) (x : A)
    (e : exn) :
  x ∈ l -> f x = Raise e -> exists e' : exn, mapM f l = Raise e'.
Proof.
  intros Hin Hf. induction l as [|y l IH]; [by apply elem_of_nil in Hin|].
  cbn [mapM]. apply elem_of_cons in Hin as [<-|Hin].
  - rewrite Hf. by eexists.
  - destruct (f y); [|by eexists]. rewrite bind_Ok.
    destruct (IH Hin) as [e' He'].
    change (mapM f l) with (mapM f l) in He'. rewrite He'. by eexists.
Qed.

(** X12. [filter_articles] keeps the number and the order of the articles;
    in each of them an excluded key is gone and every other key has the
    value it had. *)
Theorem filter_articles_lookup (data : list dict) (keys_to_exclude : list string) :
  length (filter_articles data keys_to_exclude) = length data
  /\ forall (i : nat) (article : dict),
       data !! i = Some article ->
       exists article' : dict,
         filter_articles data keys_to_exclude !! i = Some article'
         /\ forall k : string,
              article' !! k
              = if bool_decide (k ∈ keys_to_exclude) then None else article !! k.
Proof.
  unfold filter_articles. split; [by rewrite length_fmap|].
  intros i article Hi. eexists. split; [by rewrite list_lookup_fmap, Hi|].
  intros k. rewrite map_lookup_filter. simpl.
  destruct (article !! k) as [v|]; simpl.
  - case_bool_decide; [by rewrite option_guard_False by auto
                      | by rewrite option_guard_True].
  - by case_bool_decide.
Qed.

(** X13. Filtering twice is filtering once with both lists of keys; in
    particular, filtering again with the same keys changes nothing. *)
Theorem filter_articles_twice (data : list dict) (first second : list string) :
  filter_articles (filter_articles data first) second
  = filter_articles data (first ++ second)
  /\ filter_articles (filter_articles data first) first
     = filter_articles data first.
Proof.
  unfold filter_articles. rewrite <- !list_fmap_compose.
  split; apply list_fmap_ext; intros _ article _; simpl;
    rewrite map_filter_filter; apply map_filter_ext; intros k v _; simpl.
  - rewrite elem_of_app. tauto.
  - tauto.
Qed.

Lemma remove_empty_cons (article : dict) (data : list dict) :
  remove_empty_keywords_articles (article :: data)
  = (keywords ← dict_getitem article "keywords";
     rest ← remove_empty_keywords_articles data;
     Ok (if truthy keywords then article :: rest else rest)).
Proof. reflexivity. Qed.

(** X14. When every article has a "keywords" key,
    [remove_empty_keywords_articles] returns, in order, exactly the articles
    whose keywords are not empty; applied to its own result it changes
    nothing. *)
Theorem remove_empty_keywords_articles_keeps (data : list dict) :
  Forall (fun article : dict => is_Some (article !! "keywords")) data ->
  let kept :=
    filter (fun article : dict =>
              truthy (default VNull (article !! "keywords")) = true) data in
  remove_empty_keywords_articles data = Ok kept
  /\ remove_empty_keywords_articles kept = Ok kept.
Proof.
  intros Hall kept.
  assert (Hrun : forall l : list dict,
             Forall (fun article : dict => is_Some (article !! "keywords")) l ->
             remove_empty_keywords_articles l
             = Ok (filter (fun article : dict =>
                             truthy (default VNull (article !! "keywords"))
                             = true) l)).
  { induction l as [|a l IH]; intros Hl; [done|].
    apply Forall_cons in Hl as [[kw Hkw] Hl].
    rewrite remove_empty_cons, (IH Hl). unfold dict_getitem.
    rewrite Hkw, !bind_Ok, filter_cons, Hkw. simpl.
    destruct (truthy kw); by case_decide. }
  split; [by apply Hrun|].
  rewrite Hrun.
  - f_equal. subst kept. apply list_filter_filter_l. done.
  - subst kept. apply Forall_forall. intros a Ha.
    apply list_elem_of_filter in Ha as [_ Ha].
    by apply (proj1 (Forall_forall _ _) Hall).
Qed.

(** X15. Dropping keys other than "keywords" and removing the articles
    without keywords can be done in either order, as [main] relies on when
    it filters first. *)
Theorem remove_empty_after_filter (data : list dict) (keys_to_exclude : list string) :
  "keywords" ∉ keys_to_exclude ->
  remove_empty_keywords_articles (filter_articles data keys_to_exclude)
  = (kept ← remove_empty_keywords_articles data;
     Ok (filter_articles kept keys_to_exclude)).
Proof.
  intros Hnot. induction data as [|a data IH]; [done|].
  change (filter_articles (a :: data) keys_to_exclude)
    with (filter (fun kv : string * value => kv.1 ∉ keys_to_exclude) a
          :: filter_articles data keys_to_exclude).
  rewrite !remove_empty_cons, IH. unfold dict_getitem.
  rewrite map_lookup_filter.
  destruct (a !! "keywords") as [kw|]; simpl; [|done].
  rewrite option_guard_True by done. simpl.
  destruct (remove_empty_keywords_articles data) as [rest|]; [|done].
  simpl. by destruct (truthy kw).
Qed.

(** X16. [get_news_by_location] only selects: when it returns, its result is
    a sublist of the articles given, in their order. *)
Theorem get_news_by_location_sublist (data out : list dict) (location : string) :
  get_news_by_location data location = Ok out -> out `sublist_of` data.
Proof.
  revert out. induction data as [|a data IH]; intros out.
  - by intros [= <-].
  - cbn [get_news_by_location].
    destruct (py_iter (default (VList []) (a !! "keywords"))) as [kws|];
      [|done].
    rewrite bind_Ok.
    destruct (any_glocation location kws) as [hit|]; [|done].
    rewrite bind_Ok.
    destruct (get_news_by_location data location) as [rest|]; [|done].
    rewrite bind_Ok. intros [= <-].
    destruct hit; [apply sublist_skip | apply sublist_cons]; by apply IH.
Qed.

(** X17. [create_headline_url_list] returns one pair per article, in order:
    when every article has a "headline" dict with a "main" entry and a
    "web_url", the call returns and the pair at each position holds that
    headline and that url. *)
Theorem create_headline_url_list_pairs (data : list dict) :
  Forall (fun article : dict =>
            exists (headline : dict) (main url : value),
              article !! "headline" = Some (VDict headline)
              /\ headline !! "main" = Some main
              /\ article !! "web_url" = Some url) data ->
  exists out : list (value * value),
    create_headline_url_list data = Ok out
    /\ length out = length data
    /\ forall (i : nat) (article headline : dict) (main url : value),
         data !! i = Some article ->
         article !! "headline" = Some (VDict headline) ->
         headline !! "main" = Some main ->
         article !! "web_url" = Some url ->
         out !! i = Some (main, url).
Proof.
  induction data as [|a data IH]; intros Hall.
  - exists []. done.
  - apply Forall_cons in Hall as [(h & m & u & Hh & Hm & Hu) Hall].
    destruct (IH Hall) as (out & Hrun & Hlen & Hat).
    exists ((m, u) :: out). rewrite create_headline_url_list_cons.
    unfold dict_getitem. rewrite Hh, Hu. simpl. unfold dict_getitem.
    rewrite Hm, Hrun. simpl.
    split; [done|]. split; [by rewrite Hlen|].
    intros [|i] a' h' m' u' Hi Hh' Hm' Hu'; simpl in Hi.
    + injection Hi as <-. rewrite Hh in Hh'. injection Hh' as <-.
      rewrite Hm in Hm'. rewrite Hu in Hu'. by simplify_eq.
    + simpl. by eapply Hat.
Qed.
Lemma any_glocation_located (location : string) (keywords : list value) :
  forallb keyword_ok keywords = true ->
  any_glocation location keywords = Ok (existsb (located location) keywords).
Proof.
  induction keywords as [|keyword keywords IH]; intros Hok; [done|].
  simpl in Hok. apply andb_prop in Hok as [Hhead Htail].
  cbn [any_glocation existsb]. rewrite (IH Htail).
  destruct keyword as [| | | | |d|]; try discriminate Hhead.
  unfold keyword_ok in Hhead. unfold located. cbn [py_getitem].
  unfold dict_getitem.
  destruct (d !! "name") as [[| | |name| | |]|]; try discriminate Hhead.
  destruct (d !! "value") as [[| | |v| | |]|]; try discriminate Hhead.
  rewrite !bind_Ok. cbn [py_eq].
  destruct (String.eqb name "glocations"); simpl; [|done].
  by destruct (str_contains location v).
Qed.

(** X18. On articles whose keywords, where present, are a list of dicts with
    a string "name" and a string "value", [get_news_by_location] returns, in
    order, exactly the articles that have a "glocations" keyword whose value
    contains the location; an article without "keywords" is left out. *)
Theorem get_news_by_location_selects (data : list dict) (location : string) :
  forallb keywords_ok data = true ->
  get_news_by_location data location
  = Ok (filter (fun article : dict =>
                  existsb (located location) (keywords_of article) = true)
               data).
Proof.
  induction data as [|a data IH]; intros Hok; [done|].
  simpl in Hok. apply andb_prop in Hok as [Hhead Htail].
  cbn [get_news_by_location]. rewrite (IH Htail), filter_cons.
  unfold keywords_ok in Hhead. unfold keywords_of.
  destruct (a !! "keywords") as [[| | | |keywords| |]|];
    try discriminate Hhead; simpl.
  - rewrite (any_glocation_located _ _ Hhead), bind_Ok.
    destruct (existsb (located location) keywords); by case_decide.
  - done.
Qed.

Lemma format_author_name_named (str_title : string -> string) (d : dict)
    (first last : string) :
  d !! "firstname" = Some (VStr first) ->
  d !! "lastname" = Some (VStr last) ->
  format_author_name str_title (VDict d)
  = Ok (VStr (str_title last +:+ ", " +:+ str_title first)).
Proof.
  intros Hfirst Hlast. unfold format_author_name. cbn [py_getitem].
  unfold dict_getitem. by rewrite Hfirst, Hlast.
Qed.

(** X19. For an article whose byline lists persons that each have a string
    "firstname" and a string "lastname", [get_author_names] returns one name
    per person, in order, each of the form "Last, First" with both parts
    title-cased; an article without "byline" raises [KeyError]. *)
Theorem get_author_names_format (str_title : string -> string)
    (article byline : dict) (people : list value) :
  (article !! "byline" = None ->
   get_author_names str_title article = Raise (KeyError (VStr "byline")))
  /\ (article !! "byline" = Some (VDict byline) ->
      byline !! "person" = Some (VList people) ->
      forallb named_person people = true ->
      exists names : list value,
        get_author_names str_title article = Ok names
        /\ length names = length people
        /\ forall (i : nat) (d : dict) (first last : string),
             people !! i = Some (VDict d) ->
             d !! "firstname" = Some (VStr first) ->
             d !! "lastname" = Some (VStr last) ->
             names !! i
             = Some (VStr (str_title last +:+ ", " +:+ str_title first))).
Proof.
  split.
  - intros Hnone. unfold get_author_names, dict_getitem. by rewrite Hnone.
  - intros Hbyline Hperson Hnamed.
    unfold get_author_names, dict_getitem. rewrite Hbyline, bind_Ok.
    cbn [py_getitem]. unfold dict_getitem. rewrite Hperson, bind_Ok.
    cbn [py_iter]. rewrite bind_Ok. clear Hbyline Hperson.
    induction people as [|person people IH]; [by exists []|].
    simpl in Hnamed. apply andb_prop in Hnamed as [Hhead Htail].
    destruct (IH Htail) as (names & Hrun & Hlen & Hat).
    destruct person as [| | | | |d|]; try discriminate Hhead.
    unfold named_person in Hhead.
    destruct (d !! "firstname") as [[| | |first| | |]|] eqn:Hfirst;
      try discriminate Hhead.
    destruct (d !! "lastname") as [[| | |last| | |]|] eqn:Hlast;
      try discriminate Hhead.
    exists (VStr (str_title last +:+ ", " +:+ str_title first) :: names).
    cbn [mapM].
    rewrite (format_author_name_named _ _ _ _ Hfirst Hlast), bind_Ok.
    change (mapM (format_author_name str_title) people)
      with (mapM (format_author_name str_title) people) in Hrun.
    rewrite Hrun, bind_Ok.
    split; [done|]. split; [simpl; by rewrite Hlen|].
    intros [|i] d' first' last' Hi Hfirst' Hlast'; simpl in Hi.
    + injection Hi as <-. rewrite Hfirst in Hfirst'. rewrite Hlast in Hlast'.
      by simplify_eq.
    + simpl. by eapply Hat.
Qed.

(** ** Dates and archival status *)

Section Dates.

Variable strptime : string -> option datetime.

Lemma convert_cons (article : dict) (data : list dict) :
  convert_published_date_value strptime (article :: data)
  = (article' ← convert_article strptime article;
     rest ← convert_published_date_value strptime data;
     Ok (article' :: rest)).
Proof. reflexivity. Qed.

(** X20. Under the assumption that every "pub_date" present is a string
    that [strptime] accepts, the date of each article is replaced by the
    datetime [strptime] gives for it. *)
Theorem convert_published_date_value_dates (data : list dict) :
  forallb (pub_date_parses strptime) data = true ->
  exists data' : list dict,
    convert_published_date_value strptime data = Ok data'
    /\ forall (i : nat) (article : dict) (s : string),
         data !! i = Some article ->
         article !! "pub_date" = Some (VStr s) ->
         exists t : datetime,
           strptime s = Some t
           /\ data' !! i = Some (<["pub_date" := VDatetime t]> article).
Proof.
  induction data as [|a data IH]; intros Hparse.
  - exists []. done.
  - simpl in Hparse. apply andb_prop in Hparse as [Hhead Htail].
    destruct (IH Htail) as (data' & Hrun & Hat).
    rewrite convert_cons, Hrun, convert_article_spec.
    unfold pub_date_parses in Hhead.
    destruct (a !! "pub_date") as [v|] eqn:Hdate.
    + destruct v as [| | |s| | |]; try discriminate Hhead. simpl.
      destruct (strptime s) as [t|] eqn:Ht;
        [|by apply bool_decide_eq_true, is_Some_None in Hhead].
      eexists. split; [reflexivity|].
      intros [|i] a' s' Hi Hs'; simpl in Hi.
      * injection Hi as <-. rewrite Hdate in Hs'. injection Hs' as <-.
        by exists t.
      * by apply Hat.
    + eexists. split; [reflexivity|].
      intros [|i] a' s' Hi Hs'; simpl in Hi.
      * injection Hi as <-. by rewrite Hdate in Hs'.
      * by apply Hat.
Qed.


(** X22. The conversion cannot be run twice: on its own result, as soon as
    an article had a "pub_date", it raises [TypeError], because the value is
    a datetime by then. *)
Theorem convert_published_date_value_once (data data' : list dict) :
  convert_published_date_value strptime data = Ok data' ->
  Exists (fun article : dict => is_Some (article !! "pub_date")) data ->
  convert_published_date_value strptime data' = Raise TypeError.
Proof.
  revert data'. induction data as [|a data IH]; intros data' Hrun Hex;
    [by apply Exists_nil in Hex|].
  rewrite convert_cons, convert_article_spec in Hrun.
  destruct (a !! "pub_date") as [v|] eqn:Hdate.
  - destruct v as [| | |s| | |]; try discriminate Hrun. simpl in Hrun.
    destruct (strptime s) as [t|]; [|discriminate Hrun]. simpl in Hrun.
    destruct (convert_published_date_value strptime data) as [rest|];
      [|discriminate Hrun].
    injection Hrun as <-.
    rewrite convert_cons, convert_article_spec, lookup_insert_eq. reflexivity.
  - rewrite bind_Ok in Hrun.
    destruct (convert_published_date_value strptime data) as [rest|] eqn:Hrest;
      [|discriminate Hrun].
    injection Hrun as <-.
    apply Exists_cons in Hex as [[w Hw]|Hex]; [by rewrite Hdate in Hw|].
    rewrite convert_cons, convert_article_spec, Hdate, bind_Ok.
    by rewrite (IH rest eq_refl Hex).
Qed.

End Dates.

Lemma show_archival_status_cons (article : dict) (data : list dict) (threshold : Z) :
  show_archival_status (article :: data) threshold
  = (pub_date ← dict_getitem article "pub_date";
     y ← py_year pub_date;
     headline ← dict_getitem article "headline";
     main ← py_getitem headline (VStr "main");
     rest ← show_archival_status data threshold;
     Ok ((main, if y >=? threshold then "Active" else "Archived") :: rest)).
Proof.
  unfold show_archival_status. cbn [mapM].
  destruct (dict_getitem article "pub_date") as [d|]; [|done].
  rewrite !bind_Ok. destruct (py_year d) as [y|]; [|done].
  rewrite !bind_Ok.
  destruct (y >=? threshold);
    (destruct (dict_getitem article "headline") as [h|]; [|done]);
    rewrite !bind_Ok;
    (destruct (py_getitem h (VStr "main")) as [m|]; [|done]);
    by rewrite !bind_Ok.
Qed.

(** X23. On articles that each have a datetime "pub_date" and a headline,
    [show_archival_status] returns one pair per article, in order: the
    headline, and "Active" when the year of the date is at least the
    threshold, "Archived" otherwise. *)
Theorem show_archival_status_labels (data : list dict) (threshold : Z) :
  forallb status_ready data = true ->
  exists out : list (value * string),
    show_archival_status data threshold = Ok out
    /\ length out = length data
    /\ forall (i : nat) (article headline : dict) (t : datetime) (main : value),
         data !! i = Some article ->
         article !! "pub_date" = Some (VDatetime t) ->
         article !! "headline" = Some (VDict headline) ->
         headline !! "main" = Some main ->
         out !! i
         = Some (main, if year t >=? threshold then "Active" else "Archived").
Proof.
  induction data as [|a data IH]; intros Hready.
  - exists []. done.
  - simpl in Hready. apply andb_prop in Hready as [Hhead Htail].
    destruct (IH Htail) as (out & Hrun & Hlen & Hat).
    rewrite show_archival_status_cons, Hrun. unfold status_ready in Hhead.
    unfold dict_getitem.
    destruct (a !! "pub_date") as [[| | | | | |t]|] eqn:Hd;
      try discriminate Hhead.
    destruct (a !! "headline") as [[| | | | |h|]|] eqn:Hh;
      try discriminate Hhead.
    apply bool_decide_eq_true in Hhead as [m Hm].
    simpl. unfold dict_getitem. rewrite Hm. simpl.
    eexists. split; [reflexivity|]. split; [simpl; by rewrite Hlen|].
    intros [|i] a' h' t' m' Hi Hd' Hh' Hm'; simpl in Hi.
    + injection Hi as <-. rewrite Hd in Hd'. rewrite Hh in Hh'.
      by simplify_eq.
    + simpl. by eapply Hat.
Qed.

(** X24. The first article that cannot be labelled decides the exception of
    [show_archival_status]: [KeyError] when it has no "pub_date",
    [AttributeError] when its "pub_date" is not a datetime, as on articles
    whose dates have not been converted. *)
Theorem show_archival_status_raises (ready : list dict) (article : dict)
    (rest : list dict) (threshold : Z) :
  forallb status_ready ready = true ->
  (article !! "pub_date" = None ->
   show_archival_status (ready ++ article :: rest) threshold
   = Raise (KeyError (VStr "pub_date")))
  /\ (forall v : value,
        article !! "pub_date" = Some v ->
        (forall t : datetime, v <> VDatetime t) ->
        show_archival_status (ready ++ article :: rest) threshold
        = Raise AttributeError).
Proof.
  induction ready as [|a ready IH]; intros Hready.
  - cbn [app]. rewrite show_archival_status_cons. unfold dict_getitem. split.
    + by intros ->.
    + intros v -> Hnot. destruct v as [| | | | | |t]; try reflexivity.
      by destruct (Hnot t).
  - simpl in Hready. apply andb_prop in Hready as [Hhead Htail].
    destruct (IH Htail) as [IH1 IH2].
    cbn [app]. rewrite show_archival_status_cons.
    unfold status_ready in Hhead. unfold dict_getitem.
    destruct (a !! "pub_date") as [[| | | | | |t]|] eqn:Hd;
      try discriminate Hhead.
    destruct (a !! "headline") as [[| | | | |h|]|] eqn:Hh;
      try discriminate Hhead.
    apply bool_decide_eq_true in Hhead as [m Hm].
    simpl. unfold dict_getitem. rewrite Hm. simpl. split.
    + intros Hnone. by rewrite (IH1 Hnone).
    + intros v Hv Hnot. by rewrite (IH2 v Hv Hnot).
Qed.

Section StatusOfRaw.

Variable strptime : string -> option datetime.

(** X25. Converting the dates and then labelling, as [main] does: on
    articles that each have a "pub_date" string [strptime] accepts and a
    headline, both calls return, and the label of each article is decided by
    the year [strptime] reads in its date. *)
Theorem show_archival_status_converted (data : list dict) (threshold : Z) :
  forallb (raw_ready strptime) data = true ->
  exists (data' : list dict) (out : list (value * string)),
    convert_published_date_value strptime data = Ok data'
    /\ show_archival_status data' threshold = Ok out
    /\ length out = length data
    /\ forall (i : nat) (article headline : dict) (s : string) (t : datetime)
         (main : value),
         data !! i = Some article ->
         article !! "pub_date" = Some (VStr s) ->
         strptime s = Some t ->
         article !! "headline" = Some (VDict headline) ->
         headline !! "main" = Some main ->
         out !! i
         = Some (main, if year t >=? threshold then "Active" else "Archived").
Proof.
  induction data as [|a data IH]; intros Hready.
  - exists [], []. done.
  - simpl in Hready. apply andb_prop in Hready as [Hhead Htail].
    destruct (IH Htail) as (data' & out & Hconv & Hrun & Hlen & Hat).
    unfold raw_ready in Hhead.
    destruct (a !! "pub_date") as [[| | |s| | |]|] eqn:Hd;
      try discriminate Hhead.
    destruct (a !! "headline") as [[| | | | |h|]|] eqn:Hh;
      try discriminate Hhead.
    apply andb_prop in Hhead as [Hs Hm].
    apply bool_decide_eq_true in Hs as [t Ht].
    apply bool_decide_eq_true in Hm as [m Hm].
    exists (<["pub_date" := VDatetime t]> a :: data'),
      ((m, if year t >=? threshold then "Active" else "Archived") :: out).
    split.
    { change (convert_published_date_value strptime (a :: data))
        with (article' ← convert_article strptime a;
              rest ← convert_published_date_value strptime data;
              Ok (article' :: rest)).
      rewrite convert_article_spec, Hd, Hconv. simpl. by rewrite Ht. }
    split.
    { rewrite show_archival_status_cons, Hrun. unfold dict_getitem.
      rewrite lookup_insert_eq, lookup_insert_ne, Hh by done. simpl.
      unfold dict_getitem. by rewrite Hm. }
    split; [simpl; by rewrite Hlen|].
    intros [|i] a' h' s' t' m' Hi Hd' Ht' Hh' Hm'; simpl in Hi.
    + injection Hi as <-. rewrite Hd in Hd'. rewrite Hh in Hh'.
      by simplify_eq.
    + simpl. by eapply Hat.
Qed.

End StatusOfRaw.

(** ** Fetching, continued *)

Section Fetching.

Variable requests : value -> option dict -> result value.

Lemma get_homeworld_response (identifier : string) (url : value) :
  get_homeworld requests (VStr identifier) url
  = (swapi_result ← homeworld_response requests identifier url;
     name ← py_get swapi_result "name" (VStr "");
     diameter ← py_get swapi_result "diameter" (VStr "");
     climate ← py_get swapi_result "climate" (VStr "");
     terrain ← py_get swapi_result "terrain" (VStr "");
     population ← py_get swapi_result "population" (VStr "");
     Ok ({[ "name" := name; "diameter" := diameter; "climate" := climate;
            "terrain" := terrain; "population" := population ]} : dict)).
Proof.
  unfold get_homeworld, homeworld_response. cbn [py_in]. rewrite bind_Ok.
  destruct (str_contains "https://" identifier); reflexivity.
Qed.

(** X26. Whatever the identifier and the endpoint, a record that
    [get_homeworld] returns has exactly the five planet keys. *)
Theorem get_homeworld_keys (identifier url : value) (planet : dict) :
  get_homeworld requests identifier url = Ok planet ->
  dom planet = planet_fields.
Proof.
  unfold get_homeworld.
  destruct (py_in (VStr "https://") identifier) as [is_url|]; [|done].
  rewrite bind_Ok.
  match goal with
  | |- (?r ≫= _) = _ -> _ => destruct r as [swapi_result|]; [|done]
  end.
  rewrite bind_Ok. destruct swapi_result; try done. simpl.
  intros [= <-]. unfold planet_fields.
  rewrite <- !insert_empty, !dom_insert_L, dom_empty_L. set_solver.
Qed.

(** X27. An identifier that contains "https://" is resolved by fetching it:
    when that fetch gives a planet record, [get_homeworld] returns its five
    fields, each copied from the record or the empty string when the record
    lacks it; the endpoint passed as [url] plays no part. *)
Theorem get_homeworld_by_locator (identifier : string) (url : value)
    (planet : dict) :
  str_contains "https://" identifier = true ->
  requests (VStr identifier) None = Ok (VDict planet) ->
  get_homeworld requests (VStr identifier) url
  = Ok {[ "name" := default (VStr "") (planet !! "name");
          "diameter" := default (VStr "") (planet !! "diameter");
          "climate" := default (VStr "") (planet !! "climate");
          "terrain" := default (VStr "") (planet !! "terrain");
          "population" := default (VStr "") (planet !! "population") ]}.
Proof.
  intros Hurl Hbody. rewrite get_homeworld_response.
  unfold homeworld_response. by rewrite Hurl, Hbody.
Qed.

(** X28. [get_homeworld] does not recover from a failed lookup: an
    exception of the request is passed on, a response that is not a dict
    (a list, a string, null) raises [AttributeError], and an identifier that
    is null, as for a person without homeworld, raises [TypeError] before
    any request is sent. *)
Theorem get_homeworld_raises (identifier : string) (url : value) :
  (forall e : exn,
     homeworld_response requests identifier url = Raise e ->
     get_homeworld requests (VStr identifier) url = Raise e)
  /\ (forall body : value,
        homeworld_response requests identifier url = Ok body ->
        (forall d : dict, body <> VDict d) ->
        get_homeworld requests (VStr identifier) url = Raise AttributeError)
  /\ get_homeworld requests VNull url = Raise TypeError.
Proof.
  split; [|split].
  - intros e He. by rewrite get_homeworld_response, He.
  - intros body Hbody Hnot. rewrite get_homeworld_response, Hbody, bind_Ok.
    destruct body as [| | | | |d|]; try reflexivity. by destruct (Hnot d).
  - reflexivity.
Qed.

End Fetching.

(** ** Unique values, continued *)

Lemma foldlM_invariant_elem {A B : Type} (P : B -> Prop) (f : B -> A -> result B)
    (l : list A) (acc out : B) :
  (forall (b : B) (a : A) (b' : B), a ∈ l -> P b -> f b a = Ok b' -> P b') ->
  P acc -> foldlM f acc l = Ok out -> P out.
Proof.
  revert acc. induction l as [|a l IH]; intros acc Hstep Hacc Hrun.
  - injection Hrun as <-. exact Hacc.
  - cbn [foldlM] in Hrun. destruct (f acc a) as [b|] eqn:Hf; [|done].
    rewrite bind_Ok in Hrun. apply (IH b); [| |exact Hrun].
    + intros b0 a0 b' Hin. apply Hstep. by right.
    + apply (Hstep acc a); [by left | done | done].
Qed.

Lemma fold_left_invariant_elem {A B : Type} (P : B -> Prop) (f : B -> A -> B)
    (l : list A) (acc : B) :
  (forall (b : B) (a : A), a ∈ l -> P b -> P (f b a)) ->
  P acc -> P (fold_left f l acc).
Proof.
  revert acc. induction l as [|a l IH]; intros acc Hstep Hacc; [done|].
  simpl. apply IH.
  - intros b a0 Hin. apply Hstep. by right.
  - apply Hstep; [by left | done].
Qed.

(** X29. The list of organizations that [main] collects never holds two
    equal values (no element is equal to one before it), and holds nothing
    but organization names of the articles. *)
Theorem tech_organizations_distinct (nyt_tech : list dict) (out : list value) :
  tech_organizations nyt_tech = Ok out ->
  no_repeats out
  /\ forall v : value,
       v ∈ out ->
       exists (article : dict) (names : list value),
         article ∈ nyt_tech
         /\ get_organization_names article = Ok names
         /\ v ∈ names.
Proof.
  apply (foldlM_invariant_elem
           (fun acc =>
              no_repeats acc
              /\ forall v : value,
                   v ∈ acc ->
                   exists (article : dict) (names : list value),
                     article ∈ nyt_tech
                     /\ get_organization_names article = Ok names
                     /\ v ∈ names));
    [|split; [apply no_repeats_nil | by intros v Hv%elem_of_nil]].
  intros acc article acc' Hin Hacc Hstep.
  destruct (get_organization_names article) as [org_names|] eqn:Hnames;
    [|done].
  rewrite bind_Ok in Hstep.
  destruct (truthy (VList org_names)); injection Hstep as <-; [|done].
  apply fold_left_invariant_elem; [|done].
  intros b name Hname [Hb1 Hb2].
  split; [by apply add_organization_no_repeats|].
  intros v. unfold add_organization.
  destruct (list_contains b name); simpl; [by apply Hb2|].
  intros [Hv|Hv%list_elem_of_singleton]%elem_of_app; [by apply Hb2|].
  subst v. by exists article, org_names.
Qed.

(** X30. The list of authors that [main] collects never holds two equal
    values, never holds [None], and holds nothing but author names of the
    articles. *)
Theorem unique_authors_distinct (str_title : string -> string)
    (nyt_tech : list dict) (out : list value) :
  unique_authors str_title nyt_tech = Ok out ->
  no_repeats out
  /\ Forall (fun x => is_not_none x = true) out
  /\ forall v : value,
       v ∈ out ->
       exists (article : dict) (names : list value),
         article ∈ nyt_tech
         /\ get_author_names str_title article = Ok names
         /\ v ∈ names.
Proof.
  apply (foldlM_invariant_elem
           (fun acc =>
              no_repeats acc
              /\ Forall (fun x => is_not_none x = true) acc
              /\ forall v : value,
                   v ∈ acc ->
                   exists (article : dict) (names : list value),
                     article ∈ nyt_tech
                     /\ get_author_names str_title article = Ok names
                     /\ v ∈ names));
    [|split; [apply no_repeats_nil | split; [done|by intros v Hv%elem_of_nil]]].
  intros acc article acc' Hin Hacc Hstep.
  destruct (get_author_names str_title article) as [authors|] eqn:Hnames;
    [|done].
  rewrite bind_Ok in Hstep.
  destruct (truthy (VList authors)); injection Hstep as <-; [|done].
  apply fold_left_invariant_elem; [|done].
  intros b author Hauthor (Hb1 & Hb2 & Hb3).
  split; [by apply add_author_no_repeats|].
  split; [by apply add_author_not_none|].
  intros v. unfold add_author.
  destruct (is_not_none author && negb (list_contains b author));
    [|by apply Hb3].
  intros [Hv|Hv%list_elem_of_singleton]%elem_of_app; [by apply Hb3|].
  subst v. by exists article, authors.
Qed.

(** ** Runs of the further properties on the sample data *)

Lemma board_starship_frame_witness :
  exists starship' : dict,
    board_starship rebel_blockade boarding = Ok starship'
    /\ starship' !! "name" = rebel_blockade !! "name".
Proof.
  eexists. split; [reflexivity|].
  apply (board_starship_frame rebel_blockade _ boarding);
    [reflexivity | done | done].
Defined.

Lemma board_starship_bad_bucket_witness :
  swapi_rebel_blockade !! "passengers" = Some (VStr "600")
  /\ board_starship swapi_rebel_blockade boarding = Raise AttributeError.
Proof.
  split; [reflexivity|].
  apply (board_starship_bad_bucket swapi_rebel_blockade (VStr "600") boarding);
    [reflexivity | discriminate | exists r2d2; apply list_elem_of_here].
Defined.

Lemma capture_starship_all_witness :
  exists attacker' : dict,
    foldlM capture_starship stardestroyer [VDict rebel_blockade; r2d2]
    = Ok attacker'
    /\ attacker' !! "primary_docking_bay"
       = Some (VDict {[ "docked" := VList [VDict rebel_blockade; r2d2] ]}).
Proof.
  destruct (capture_starship_all stardestroyer (VDict rebel_blockade) [r2d2])
    as (attacker' & Hrun & Hbay & _); [reflexivity|].
  by exists attacker'.
Defined.

Lemma capture_starship_returns_witness :
  capture_starship {[ "primary_docking_bay" := VDict ∅ ]} r2d2
  = Raise (KeyError (VStr "docked"))
  /\ capture_starship
       {[ "primary_docking_bay" := VDict {[ "docked" := VStr "x" ]} ]} r2d2
     = Raise AttributeError
  /\ capture_starship {[ "primary_docking_bay" := VList [] ]} r2d2
     = Raise TypeError
  /\ is_Ok (capture_starship stardestroyer r2d2).
Proof.
  split; [|split; [|split]].
  - apply (proj1 (proj2
             (capture_starship_returns
                {[ "primary_docking_bay" := VDict ∅ ]} r2d2)) ∅);
      reflexivity.
  - apply (proj1 (proj2 (proj2
             (capture_starship_returns
                {[ "primary_docking_bay" := VDict {[ "docked" := VStr "x" ]} ]}
                r2d2)))
             {[ "docked" := VStr "x" ]} (VStr "x"));
      [reflexivity | reflexivity | discriminate].
  - apply (proj2 (proj2 (proj2
             (capture_starship_returns
                {[ "primary_docking_bay" := VList [] ]} r2d2))) (VList []));
      [reflexivity | discriminate].
  - apply (proj2 (proj1 (capture_starship_returns stardestroyer r2d2))).
    by left.
Defined.

Lemma capture_starship_appends_witness :
  exists attacker' bay' : dict,
    foldlM capture_starship
      {[ "primary_docking_bay" :=
           VDict {[ "docked" := VList [r2d2]; "level" := VNum 3 ]} ]}
      [c3po; vader] = Ok attacker'
    /\ attacker' !! "primary_docking_bay" = Some (VDict bay')
    /\ bay' !! "docked" = Some (VList [r2d2; c3po; vader])
    /\ bay' !! "level" = Some (VNum 3).
Proof.
  destruct (capture_starship_appends
              {[ "primary_docking_bay" :=
                   VDict {[ "docked" := VList [r2d2]; "level" := VNum 3 ]} ]}
              {[ "docked" := VList [r2d2]; "level" := VNum 3 ]}
              [r2d2] [c3po; vader])
    as (attacker' & bay' & Hrun & Hbay & Hdocked & Hframe & _);
    [reflexivity | reflexivity |].
  exists attacker', bay'. repeat split; try assumption.
  by rewrite Hframe.
Defined.

Lemma insert_dialogue_other_witness : insert_dialogue leia dialogue = Ok leia.
Proof.
  apply (insert_dialogue_other leia dialogue).
  intros name [= <-]. reflexivity.
Defined.

Lemma insert_dialogue_extends_witness :
  insert_dialogue
    {[ "name" := VStr "Darth Vader"; "dialogue" := VList [VStr "No."] ]}
    dialogue
  = Ok (<["dialogue" :=
            VList [VStr "No."; VStr "sound of evil mechanical breathing"]]>
          {[ "name" := VStr "Darth Vader"; "dialogue" := VList [VStr "No."] ]}).
Proof.
  destruct (insert_dialogue_extends
              {[ "name" := VStr "Darth Vader"; "dialogue" := VList [VStr "No."] ]}
              dialogue "Darth Vader" [VStr "No."]
              [VStr "sound of evil mechanical breathing"]) as [Hrun _];
    [reflexivity | reflexivity | reflexivity | exact Hrun].
Defined.

Lemma insert_dialogue_no_list_witness :
  insert_dialogue {[ "name" := VStr "R2-D2" ]} dialogue
  = Raise (KeyError (VStr "dialogue")).
Proof.
  apply (insert_dialogue_no_list {[ "name" := VStr "R2-D2" ]} dialogue "R2-D2");
    [reflexivity | by eexists | reflexivity].
Defined.

Lemma insert_dialogue_created_witness :
  exists person : dict,
    create_person locator_endpoint swapi_r2d2 SWAPI_PLANETS = Ok person
    /\ insert_dialogue person dialogue
       = Ok (<["dialogue" :=
                 VList [ VStr "beep, beep, boop."; VStr "boop, beep, beep.";
                         VStr "boop, beeeep!" ]]> person).
Proof.
  eexists. split; [reflexivity|].
  apply (insert_dialogue_created locator_endpoint swapi_r2d2 _ SWAPI_PLANETS
           dialogue "R2-D2"); reflexivity.
Defined.

Lemma filter_articles_lookup_witness :
  exists article' : dict,
    filter_articles nyt_sample ["web_url"; "snippet"] !! 0%nat = Some article'
    /\ article' !! "web_url" = None
    /\ article' !! "pub_date" = article_calif !! "pub_date".
Proof.
  destruct (filter_articles_lookup nyt_sample ["web_url"; "snippet"])
    as [_ Hat].
  destruct (Hat 0%nat article_calif eq_refl) as (article' & Hi & Hk).
  exists article'. split; [exact Hi|].
  split; [exact (Hk "web_url") | exact (Hk "pub_date")].
Defined.

Lemma remove_empty_keywords_articles_keeps_witness :
  remove_empty_keywords_articles nyt_sample = Ok [article_calif].
Proof.
  apply (remove_empty_keywords_articles_keeps nyt_sample).
  repeat constructor; by eexists.
Defined.

Lemma remove_empty_after_filter_witness :
  remove_empty_keywords_articles (filter_articles nyt_sample ["web_url"])
  = Ok (filter_articles [article_calif] ["web_url"]).
Proof.
  rewrite (remove_empty_after_filter nyt_sample ["web_url"]);
    [reflexivity|].
  intros Hin%list_elem_of_singleton. discriminate Hin.
Defined.

Lemma get_news_by_location_sublist_witness :
  get_news_by_location nyt_sample "Calif" = Ok [article_calif]
  /\ [article_calif] `sublist_of` nyt_sample.
Proof.
  split; [reflexivity|].
  apply (get_news_by_location_sublist nyt_sample [article_calif] "Calif").
  reflexivity.
Defined.

Lemma create_headline_url_list_pairs_witness :
  exists out : list (value * value),
    create_headline_url_list nyt_sample = Ok out
    /\ out !! 1%nat
       = Some (VStr "Notes", VStr "https://www.nytimes.com/notes.html").
Proof.
  destruct (create_headline_url_list_pairs nyt_sample)
    as (out & Hrun & _ & Hat).
  { repeat constructor; do 3 eexists; repeat split; reflexivity. }
  exists out. split; [exact Hrun|].
  apply (Hat 1%nat article_plain {[ "main" := VStr "Notes" ]}); reflexivity.
Defined.

Lemma convert_published_date_value_dates_witness :
  exists (data' : list dict) (t : datetime),
    convert_published_date_value sample_strptime nyt_sample = Ok data'
    /\ data' !! 0%nat = Some (<["pub_date" := VDatetime t]> article_calif)
    /\ year t = 2022.
Proof.
  destruct (convert_published_date_value_dates sample_strptime nyt_sample)
    as (data' & Hrun & Hat); [reflexivity|].
  destruct (Hat 0%nat article_calif "2022-01-05T10:00:12+0000" eq_refl eq_refl)
    as (t & Ht & Hi).
  exists data', t. split; [exact Hrun|]. split; [exact Hi|].
  injection Ht as <-. reflexivity.
Defined.


Lemma convert_published_date_value_once_witness :
  exists data' : list dict,
    convert_published_date_value sample_strptime nyt_sample = Ok data'
    /\ convert_published_date_value sample_strptime data' = Raise TypeError.
Proof.
  eexists. split; [reflexivity|].
  apply (convert_published_date_value_once sample_strptime nyt_sample);
    [reflexivity|].
  apply Exists_cons_hd. by eexists.
Defined.

Lemma show_archival_status_labels_witness :
  show_archival_status status_sample 2022
  = Ok [ (VStr "Chips", "Archived"); (VStr "Chips", "Active");
         (VStr "Chips", "Active") ].
Proof.
  destruct (show_archival_status_labels status_sample 2022)
    as (out & Hrun & Hlen & Hat); [reflexivity|].
  rewrite Hrun. f_equal.
  pose proof (Hat 0%nat (article_of_year 2021) {[ "main" := VStr "Chips" ]}
                (mk_datetime 2021 6 1 12 0 0 0) (VStr "Chips")
                eq_refl eq_refl eq_refl eq_refl) as H0.
  pose proof (Hat 1%nat (article_of_year 2022) {[ "main" := VStr "Chips" ]}
                (mk_datetime 2022 6 1 12 0 0 0) (VStr "Chips")
                eq_refl eq_refl eq_refl eq_refl) as H1.
  pose proof (Hat 2%nat (article_of_year 2023) {[ "main" := VStr "Chips" ]}
                (mk_datetime 2023 6 1 12 0 0 0) (VStr "Chips")
                eq_refl eq_refl eq_refl eq_refl) as H2.
  destruct out as [|x0 [|x1 [|x2 [|x3 out]]]]; try discriminate Hlen.
  simpl in H0, H1, H2. by simplify_eq.
Defined.

Lemma show_archival_status_raises_witness :
  show_archival_status [article_of_year 2023; article_calif] 2022
  = Raise AttributeError
  /\ show_archival_status [article_of_year 2023; ∅] 2022
     = Raise (KeyError (VStr "pub_date")).
Proof.
  split.
  - apply (proj2 (show_archival_status_raises [article_of_year 2023]
                    article_calif [] 2022 eq_refl)
             (VStr "2022-01-05T10:00:12+0000"));
      [reflexivity | discriminate].
  - apply (proj1 (show_archival_status_raises [article_of_year 2023]
                    ∅ [] 2022 eq_refl)).
    reflexivity.
Defined.

Lemma show_archival_status_converted_witness :
  exists (data' : list dict) (out : list (value * string)),
    convert_published_date_value sample_strptime nyt_sample = Ok data'
    /\ show_archival_status data' 2022 = Ok out
    /\ out !! 0%nat = Some (VStr "Chips", "Active").
Proof.
  destruct (show_archival_status_converted sample_strptime nyt_sample 2022)
    as (data' & out & Hconv & Hrun & _ & Hat); [reflexivity|].
  exists data', out. split; [exact Hconv|]. split; [exact Hrun|].
  apply (Hat 0%nat article_calif {[ "main" := VStr "Chips" ]}
           "2022-01-05T10:00:12+0000" (mk_datetime 2022 1 5 10 0 12 0));
    reflexivity.
Defined.

Lemma get_homeworld_keys_witness :
  exists planet : dict,
    get_homeworld search_endpoint (VStr "Tatooine") SWAPI_PLANETS = Ok planet
    /\ dom planet = planet_fields.
Proof.
  eexists. split; [reflexivity|].
  apply (get_homeworld_keys search_endpoint (VStr "Tatooine") SWAPI_PLANETS).
  reflexivity.
Defined.

Lemma get_homeworld_by_locator_witness :
  get_homeworld locator_endpoint (VStr "https://swapi.py4e.com/api/planets/1/")
    (VStr "https://swapi.py4e.com/api/people/")
  = Ok tatooine.
Proof.
  rewrite (get_homeworld_by_locator locator_endpoint
             "https://swapi.py4e.com/api/planets/1/"
             (VStr "https://swapi.py4e.com/api/people/") tatooine);
    reflexivity.
Defined.

Lemma get_homeworld_raises_witness :
  get_homeworld search_endpoint (VStr "https://swapi.py4e.com/api/planets/1/")
    SWAPI_PLANETS = Raise RequestError
  /\ get_homeworld (fun _ _ => Ok (VList [])) (VStr "Tatooine") SWAPI_PLANETS
     = Raise AttributeError.
Proof.
  split.
  - apply (proj1 (get_homeworld_raises search_endpoint
                    "https://swapi.py4e.com/api/planets/1/" SWAPI_PLANETS)).
    reflexivity.
  - apply (proj1 (proj2 (get_homeworld_raises (fun _ _ => Ok (VList []))
                           "Tatooine" SWAPI_PLANETS)) (VList []));
      [reflexivity | discriminate].
Defined.

Lemma tech_organizations_distinct_witness :
  tech_organizations (nyt_sample ++ nyt_sample) = Ok [VStr "Apple Inc"]
  /\ no_repeats [VStr "Apple Inc"].
Proof.
  split; [reflexivity|].
  apply (tech_organizations_distinct (nyt_sample ++ nyt_sample)).
  reflexivity.
Defined.

Lemma unique_authors_distinct_witness :
  unique_authors sample_title (nyt_sample ++ nyt_sample)
  = Ok [VStr "Lovelace, Ada"]
  /\ no_repeats [VStr "Lovelace, Ada"].
Proof.
  split; [reflexivity|].
  apply (unique_authors_distinct sample_title (nyt_sample ++ nyt_sample)).
  reflexivity.
Defined.

Lemma get_news_by_location_selects_witness :
  get_news_by_location nyt_sample "Calif" = Ok [article_calif]
  /\ get_news_by_location nyt_sample "Texas" = Ok [].
Proof.
  split.
  - rewrite (get_news_by_location_selects nyt_sample "Calif");
      reflexivity.
  - rewrite (get_news_by_location_selects nyt_sample "Texas");
      reflexivity.
Defined.

Lemma get_author_names_format_witness :
  get_author_names sample_title {[ "web_url" := VStr "x" ]}
  = Raise (KeyError (VStr "byline"))
  /\ exists names : list value,
       get_author_names sample_title article_calif = Ok names
       /\ names !! 0%nat = Some (VStr "Lovelace, Ada").
Proof.
  split.
  - apply (proj1 (get_author_names_format sample_title
                    {[ "web_url" := VStr "x" ]} ∅ [])).
    reflexivity.
  - destruct (proj2 (get_author_names_format sample_title article_calif
                       {[ "person" :=
                            VList [ VDict {[ "firstname" := VStr "ada";
                                             "lastname" := VStr "lovelace" ]} ] ]}
                       [ VDict {[ "firstname" := VStr "ada";
                                  "lastname" := VStr "lovelace" ]} ]))
      as (names & Hrun & _ & Hat); [reflexivity | reflexivity | reflexivity |].
    exists names. split; [exact Hrun|].
    apply (Hat 0%nat {[ "firstname" := VStr "ada"; "lastname" := VStr "lovelace" ]}
             "ada" "lovelace"); reflexivity.
Defined.
